(** * Schedule-table derivation of the task dashboard (src/app.py)

    A shallow embedding of [load_tasks], [build_schedule_table],
    [build_schedule_table_weekly] and the list-view numbering of
    src/app.py, with the properties of the schedule grid they produce.

    Calendar dates are proleptic Gregorian ordinals, as in Python's
    [datetime.date.toordinal]; a [timedelta] is its number of days. *)

From Stdlib Require Import ZArith Lia.
From stdpp Require Import numbers list strings pretty sorting.

Local Open Scope Z_scope.

(** ** Calendar arithmetic (Python's [datetime] module) *)

Module Calendar.

(** [_DAYS_IN_MONTH] and [_DAYS_BEFORE_MONTH], index 0 being the
    placeholder -1. *)
Definition _DAYS_IN_MONTH : list Z :=
  [-1; 31; 28; 31; 30; 31; 30; 31; 31; 30; 31; 30; 31].

Definition _DAYS_BEFORE_MONTH : list Z :=
  [-1; 0; 31; 59; 90; 120; 151; 181; 212; 243; 273; 304; 334].

Definition tbl (t : list Z) (i : Z) : Z := default (-1) (t !! Z.to_nat i).

Definition _is_leap (year : Z) : bool :=
  (year mod 4 =? 0) && (negb (year mod 100 =? 0) || (year mod 400 =? 0)).

Definition _days_before_year (year : Z) : Z :=
  let y := year - 1 in y * 365 + y / 4 - y / 100 + y / 400.

Definition _days_in_month (year month : Z) : Z :=
  if (month =? 2) && _is_leap year then 29 else tbl _DAYS_IN_MONTH month.

Definition _days_before_month (year month : Z) : Z :=
  tbl _DAYS_BEFORE_MONTH month
  + (if (2 <? month) && _is_leap year then 1 else 0).

Definition _ymd2ord (year month day : Z) : Z :=
  _days_before_year year + _days_before_month year month + day.

Definition _DI400Y : Z := Eval cbv in _days_before_year 401.
Definition _DI100Y : Z := Eval cbv in _days_before_year 101.
Definition _DI4Y : Z := Eval cbv in _days_before_year 5.

Definition _ord2ymd (n0 : Z) : Z * Z * Z :=
  let n := n0 - 1 in
  let n400 := n / _DI400Y in
  let n := n mod _DI400Y in
  let year := n400 * 400 + 1 in
  let n100 := n / _DI100Y in
  let n := n mod _DI100Y in
  let n4 := n / _DI4Y in
  let n := n mod _DI4Y in
  let n1 := n / 365 in
  let n := n mod 365 in
  let year := year + n100 * 100 + n4 * 4 + n1 in
  if (n1 =? 4) || (n100 =? 4) then (year - 1, 12, 31)
  else
    let leapyear := (n1 =? 3) && (negb (n4 =? 24) || (n100 =? 3)) in
    let month := Z.shiftr (n + 50) 5 in
    let preceding :=
      tbl _DAYS_BEFORE_MONTH month
      + (if (2 <? month) && leapyear then 1 else 0) in
    let '(month, preceding) :=
      if n <? preceding then
        (month - 1,
         preceding
         - (tbl _DAYS_IN_MONTH (month - 1)
            + (if (month - 1 =? 2) && leapyear then 1 else 0)))
      else (month, preceding) in
    (year, month, n - preceding + 1).

(** A [date] is its ordinal; [d.month] and [d.day] read it back. *)
Definition date (year month day : Z) : Z := _ymd2ord year month day.
Definition year_of (d : Z) : Z := (_ord2ymd d).1.1.
Definition month_of (d : Z) : Z := (_ord2ymd d).1.2.
Definition day_of (d : Z) : Z := (_ord2ymd d).2.

End Calendar.

Import Calendar.

(** ** Decimal rendering used by the column labels *)

Definition digit (n : Z) : Ascii.ascii := Ascii.ascii_of_N (48 + Z.to_N n).

(** [%m] and [%d] of [strftime]: two digits, zero padded. *)
Definition pad2 (n : Z) : string :=
  String (digit (n / 10 mod 10)) (String (digit (n mod 10)) EmptyString).

(** [str(n)] for the numbers 0..99 that occur in the week labels. *)
Definition str_small (n : Z) : string :=
  if n <? 10 then String (digit n) EmptyString else pad2 n.

Definition strftime_md (d : Z) : string :=
  pad2 (month_of d) +:+ "/" +:+ pad2 (day_of d).

(** ** Cells, Python dicts and data frames *)

(** A value held in a sheet cell or a frame cell: missing ([None], [NaN],
    [NaT]), an integer, a string, or a calendar day (a [date], or a
    [Timestamp] read at day granularity). *)
Inductive cell : Type :=
| NA
| Num (n : Z)
| Str (s : string)
| Date (d : Z).

#[global] Instance cell_eq_dec : EqDecision cell.
Proof. solve_decision. Defined.

(** A Python [dict] with string keys: insertion ordered, assignment to an
    existing key keeps its position and replaces its value. *)
Definition pydict : Type := list (string * cell).

Fixpoint dict_get (k : string) (d : pydict) : option cell :=
  match d with
  | [] => None
  | (k', v) :: d' => if String.eqb k' k then Some v else dict_get k d'
  end.

Fixpoint dict_set (k : string) (v : cell) (d : pydict) : pydict :=
  match d with
  | [] => [(k, v)]
  | (k', v') :: d' =>
      if String.eqb k' k then (k, v) :: d' else (k', v') :: dict_set k v d'
  end.

Definition keys (d : pydict) : list string := fst <$> d.

Definition mem (k : string) (l : list string) : bool :=
  existsb (String.eqb k) l.

(** A [pandas.DataFrame] with the default integer index: the column labels
    in order, and one record per row. *)
Record DataFrame : Type := mkFrame {
  columns : list string;
  rows : list pydict
}.

(** [pd.DataFrame()] *)
Definition empty_frame : DataFrame := mkFrame [] [].

(** [df.empty]: some axis has length 0. *)
Definition df_empty (df : DataFrame) : bool :=
  match columns df, rows df with
  | [], _ | _, [] => true
  | _, _ => false
  end.

(** [row[c]] for a column [c] of the frame: a record that lacks the key
    holds [NaN] there. *)
Definition row_get (r : pydict) (c : string) : cell :=
  default NA (dict_get c r).

(** Labels of [pd.DataFrame(records)]: the keys in order of first
    appearance. *)
Definition add_col (c : string) (cols : list string) : list string :=
  if mem c cols then cols else cols ++ [c].

Definition union_keys (recs : list pydict) : list string :=
  foldl (fun cols r => foldl (fun cs k => add_col k cs) cols (keys r)) [] recs.

Definition DataFrame_of (recs : list pydict) : DataFrame :=
  mkFrame (union_keys recs) recs.

(** [df[c] = f(row)], row by row. *)
Definition assign (c : string) (f : pydict -> cell) (df : DataFrame) : DataFrame :=
  mkFrame (add_col c (columns df)) ((fun r => dict_set c (f r) r) <$> rows df).

(** [df[cols]]: the frame re-laid on the listed columns. *)
Definition reindex (cols : list string) (r : pydict) : pydict :=
  (fun c => (c, row_get r c)) <$> cols.

(** ** Exceptions *)

Inductive exn : Type :=
| KeyError (k : string)
| ValueError
| TypeError.

Inductive result (A : Type) : Type :=
| Ok (a : A)
| Raise (e : exn).
Arguments Ok {A} a.
Arguments Raise {A} e.

#[global] Instance result_ret : MRet result := fun A a => Ok a.
#[global] Instance result_bind : MBind result := fun A B f m =>
  match m with
  | Ok a => f a
  | Raise e => Raise e
  end.

(** [df[c]] on a label that is not a column raises [KeyError]. *)
Definition need (c : string) (df : DataFrame) : result unit :=
  if mem c (columns df) then Ok tt else Raise (KeyError c).

Definition select (cols : list string) (df : DataFrame) : result DataFrame :=
  match filter (fun c => mem c (columns df) = false) cols with
  | [] => Ok (mkFrame cols (reindex cols <$> rows df))
  | c :: _ => Raise (KeyError c)
  end.

(** ** The pandas and Python functions the program calls

    Parsing of dates and numbers and rendering of values as text are
    library code; the program's logic is independent of how a given string
    parses, so they are an interface here. *)

Inductive parsed : Type :=
| Parsed (d : Z)      (* a timestamp on day [d] *)
| Missing             (* a null input, giving [NaT] *)
| Unparseable.        (* [NaT] under [errors="coerce"], an error otherwise *)

Class Pandas : Type := {
  parse_datetime : cell -> parsed;
  parse_number : cell -> option Z;
  py_str : cell -> string;
  strip : string -> string;
  parse_datetime_Date : forall d, parse_datetime (Date d) = Parsed d;
  parse_datetime_NA : parse_datetime NA = Missing;
  parse_number_Num : forall n, parse_number (Num n) = Some n;
  parse_number_NA : parse_number NA = None;
  py_str_Str : forall s, py_str (Str s) = s
}.

Section Converters.
Context `{Pandas}.

(** [pd.to_numeric(x, errors="coerce")] *)
Definition to_numeric (c : cell) : cell :=
  match parse_number c with
  | Some n => Num n
  | None => NA
  end.

(** [pd.to_datetime(x, errors="coerce")] *)
Definition to_datetime_coerce (c : cell) : cell :=
  match parse_datetime c with
  | Parsed d => Date d
  | Missing | Unparseable => NA
  end.

(** [x.astype(str)] *)
Definition astype_str (c : cell) : cell := Str (py_str c).
End Converters.

(** [s.fillna(v)] on one cell. *)
Definition fillna (c v : cell) : cell :=
  match c with
  | NA => v
  | _ => c
  end.

(** ** Configuration (src/app.py, lines 302-304) *)

Definition PROJECT_START : Z := Eval cbv in date 2025 11 25.
Definition BASE_END : Z := Eval cbv in date 2026 3 31.
Definition MAX_SCHEDULE_DAYS : Z := 180.

(** [x.clip(1, MAX_SCHEDULE_DAYS)] on one number. *)
Definition clip (n : Z) : Z := Z.min MAX_SCHEDULE_DAYS (Z.max 1 n).

(** Column labels of the task sheet. *)
Definition c_Day : string := "Day".
Definition c_Phase : string := "Phase".
Definition c_category : string := "カテゴリ".
Definition c_title : string := "タスク名".
Definition c_detail : string := "詳細".
Definition c_owner : string := "担当".
Definition c_status : string := "ステータス".
Definition c_startDay : string := "開始Day".
Definition c_endDay : string := "終了Day".
Definition c_start : string := "開始日".
Definition c_end : string := "終了日".
Definition c_No : string := "No.".
Definition c_orig_index : string := "_orig_index".

(** Status vocabulary and grid markers. *)
Definition st_todo : string := "未着手".
Definition st_done : string := "完了".
Definition mark_done : string := "✔".
Definition mark_point : string := "●".
Definition mark_span : string := "■".

(** ** The stable sort behind [sort_values]

    [DataFrame.sort_values] on several keys is a stable sort; with a total
    preorder its result is the stable insertion sort below. *)

Section Sorting.
Context {A : Type} (le : A -> A -> bool).

Fixpoint insert_by (x : A) (l : list A) : list A :=
  match l with
  | [] => [x]
  | y :: l' => if le x y then x :: l else y :: insert_by x l'
  end.

Definition sort_values (l : list A) : list A := foldr insert_by [] l.
End Sorting.

(** ** [load_tasks] (src/app.py, lines 310-367) *)

Section Program.
Context `{Pandas}.

Definition default_columns : list string :=
  [c_Day; c_Phase; c_category; c_title; c_detail; c_owner; c_status;
   c_startDay; c_endDay].

(** [.replace([empty string, None], st_todo)] on one cell. *)
Definition replace_blank (c : cell) : cell :=
  match c with
  | NA => Str st_todo
  | Str EmptyString => Str st_todo
  | _ => c
  end.

Definition clip_cell (c : cell) : cell :=
  match c with
  | Num n => Num (clip n)
  | _ => c
  end.

(** [pd.to_datetime(PROJECT_START) + pd.to_timedelta(x - 1, unit="D")] *)
Definition day_to_date (c : cell) : cell :=
  match c with
  | Num n => Date (PROJECT_START + (n - 1))
  | _ => NA
  end.

(** Lines 348-350, for one of the three day columns. *)
Definition clip_column (df : DataFrame) (col : string) : DataFrame :=
  let df := assign col (fun r => fillna (to_numeric (row_get r col)) (Num 1)) df in
  assign col (fun r => clip_cell (row_get r col)) df.

(** Lines 326-327: blank and missing statuses become the first status. *)
Definition fix_status (df : DataFrame) : DataFrame :=
  let df := assign c_status (fun r => replace_blank (row_get r c_status)) df in
  assign c_status (fun r => fillna (row_get r c_status) (Str st_todo)) df.

(** Lines 330-350: the three day-number columns. *)
Definition day_columns (df : DataFrame) : DataFrame :=
  (* line 330: [df.get] gives None for an absent column *)
  let has_Day := mem c_Day (columns df) in
  let df := assign c_Day
              (fun r => if has_Day then to_numeric (row_get r c_Day) else NA) df in
  (* lines 332-340 *)
  let df :=
    if mem c_startDay (columns df)
    then assign c_startDay (fun r => to_numeric (row_get r c_startDay)) df
    else assign c_startDay (fun r => row_get r c_Day) df in
  let df :=
    if mem c_endDay (columns df)
    then assign c_endDay (fun r => to_numeric (row_get r c_endDay)) df
    else assign c_endDay (fun r => row_get r c_Day) df in
  (* lines 343-345 *)
  let df := assign c_Day (fun r => fillna (row_get r c_Day) (Num 1)) df in
  let df := assign c_startDay
              (fun r => fillna (row_get r c_startDay) (row_get r c_Day)) df in
  let df := assign c_endDay
              (fun r => fillna (row_get r c_endDay) (row_get r c_startDay)) df in
  (* lines 348-350 *)
  foldl clip_column df [c_Day; c_startDay; c_endDay].

(** Lines 353-361: the two date columns. *)
Definition date_columns (df : DataFrame) : DataFrame :=
  let df :=
    if mem c_start (columns df)
    then assign c_start (fun r => to_datetime_coerce (row_get r c_start)) df
    else assign c_start (fun r => day_to_date (row_get r c_startDay)) df in
  if mem c_end (columns df)
  then assign c_end (fun r => to_datetime_coerce (row_get r c_end)) df
  else assign c_end (fun r => row_get r c_start) df.

(** [pd.DataFrame(data)], or the empty frame of line 318 when the sheet
    has no records. *)
Definition sheet_frame (data : list pydict) : DataFrame :=
  match data with
  | [] => mkFrame default_columns []
  | _ => DataFrame_of data
  end.

(** [data] is what [ws.get_all_records()] returned. *)
Definition load_tasks (data : list pydict) : result DataFrame :=
  let df := sheet_frame data in
  _ ← need c_status df;
  let df := date_columns (day_columns (fix_status df)) in
  (* lines 364-365 *)
  _ ← need c_Phase df;
  let df := assign c_Phase (fun r => astype_str (row_get r c_Phase)) df in
  _ ← need c_title df;
  let df := assign c_title (fun r => astype_str (row_get r c_title)) df in
  Ok df.

(** ** [build_schedule_table] (src/app.py, lines 471-554) *)

(** [pd.to_datetime(x, errors="coerce").dt.date]; [None] is [NaT]. *)
Definition to_date (c : cell) : option Z :=
  match parse_datetime c with
  | Parsed d => Some d
  | Missing | Unparseable => None
  end.

(** A row of the frame after line 498: the columns the builder rewrote,
    typed, and the record as read for the columns it leaves alone. *)
Record task : Type := mkTask {
  t_row : pydict;
  t_Phase : string;
  t_title : string;
  t_start : Z;
  t_end : Z;
  t_startDay : Z;
  t_endDay : Z
}.

(** Lines 479-498 on one row. *)
Definition prepare (r : pydict) : task :=
  let phase := py_str (row_get r c_Phase) in
  let title := py_str (row_get r c_title) in
  let start := to_date (row_get r c_start) in
  let end_ := to_date (row_get r c_end) in
  (* lines 487-488 *)
  let start := default PROJECT_START start in
  let end_ := default start end_ in
  (* lines 490-491 *)
  let end_ := if end_ <? start then start else end_ in
  (* lines 494-498 *)
  let startDay := start - PROJECT_START + 1 in
  let endDay := end_ - PROJECT_START + 1 in
  mkTask r phase title start end_ (clip startDay) (clip endDay).

(** [s.max()] of a non-empty integer column. *)
Definition series_max (l : list Z) : Z :=
  match l with
  | [] => 0
  | x :: l' => foldl Z.max x l'
  end.

Definition lex (c1 c2 : comparison) : comparison :=
  match c1 with
  | Eq => c2
  | _ => c1
  end.

Definition not_gt (c : comparison) : bool :=
  match c with
  | Gt => false
  | _ => true
  end.

(** Order of [sort_values(["開始日", "Phase", "タスク名"])]: dates, then
    strings by code point (the byte order of their UTF-8 form). *)
Definition task_cmp (a b : task) : comparison :=
  lex (t_start a ?= t_start b)
    (lex (String.compare (t_Phase a) (t_Phase b))
       (String.compare (t_title a) (t_title b))).

Definition task_le (a b : task) : bool := not_gt (task_cmp a b).

(** [row.get(c, dflt)] *)
Definition get_or (cols : list string) (r : pydict) (c : string) (dflt : cell) : cell :=
  if mem c cols then row_get r c else dflt.

(** [str(row.get("ステータス", empty)).strip()] *)
Definition status_of (cols : list string) (r : pydict) : string :=
  strip (py_str (get_or cols r c_status (Str EmptyString))).

(** The [for idx, label in enumerate(labels)] loops, from index [idx]. *)
Fixpoint fill_cells (f : Z -> cell) (idx : Z) (labels : list string)
    (row_data : pydict) : pydict :=
  match labels with
  | [] => row_data
  | label :: labels' =>
      fill_cells f (idx + 1) labels' (dict_set label (f idx) row_data)
  end.

Definition daily_mark (status : string) (start_day end_day idx : Z) : string :=
  let start_idx := start_day - 1 in
  let end_idx := end_day - 1 in
  if (start_idx <=? idx) && (idx <=? end_idx) then
    if String.eqb status st_done then mark_done
    else if start_day =? end_day then mark_point else mark_span
  else EmptyString.

(** Lines 517-548 for the row numbered [no]. *)
Definition daily_row (cols labels : list string) (no : Z) (t : task) : pydict :=
  let start_day := t_startDay t in
  let end_day := t_endDay t in
  let status := status_of cols (t_row t) in
  let row_data :=
    [ (c_No, Num no);
      (c_Phase, Str (t_Phase t));
      (c_category, get_or cols (t_row t) c_category (Str EmptyString));
      (c_title, Str (t_title t));
      (c_owner, get_or cols (t_row t) c_owner (Str EmptyString));
      (c_status, Str status);
      (c_start, Date (t_start t));
      (c_end, Date (t_end t)) ] in
  fill_cells (fun idx => Str (daily_mark status start_day end_day idx))
    0 labels row_data.

(** [reset_index(drop=True)] and [df["No."] = df.index + 1], followed by
    the loop over the rows: row [i] is built with number [n + i]. *)
Fixpoint number_from {A B : Type} (f : Z -> A -> B) (n : Z) (l : list A) : list B :=
  match l with
  | [] => []
  | x :: l' => f n x :: number_from f (n + 1) l'
  end.

Definition fixed : list string :=
  [c_No; c_Phase; c_category; c_title; c_owner; c_status; c_start; c_end].

Definition num_days (tasks : list task) : Z :=
  let max_end_day := series_max (t_endDay <$> tasks) in
  let max_end_day := Z.min max_end_day MAX_SCHEDULE_DAYS in
  let dynamic_end := Z.max BASE_END (PROJECT_START + (max_end_day - 1)) in
  dynamic_end - PROJECT_START + 1.

Definition date_labels (n : Z) : list string :=
  (fun i => strftime_md (PROJECT_START + i)) <$> seqZ 0 n.

(** Lines 550-554 and 610-613. *)
Definition finish (out : list pydict) : result DataFrame :=
  let sched_df := DataFrame_of out in
  let others := filter (fun c => negb (mem c fixed)) (columns sched_df) in
  select (fixed ++ others) sched_df.

Definition build_schedule_table (df : DataFrame) : result DataFrame :=
  if df_empty df then Ok empty_frame
  else
    _ ← need c_Phase df;
    _ ← need c_title df;
    _ ← need c_start df;
    _ ← need c_end df;
    let tasks := prepare <$> rows df in
    let date_labels := date_labels (num_days tasks) in
    let tasks := sort_values task_le tasks in
    finish (number_from (daily_row (columns df) date_labels) 1 tasks).

(** ** [build_schedule_table_weekly] (src/app.py, lines 557-613) *)

Definition c_startWeek : string := "開始Week".
Definition c_endWeek : string := "終了Week".

(** [pd.to_datetime(x).dt.date]: no [errors="coerce"] here. *)
Definition to_date_strict (c : cell) : result (option Z) :=
  match parse_datetime c with
  | Parsed d => Ok (Some d)
  | Missing => Ok None
  | Unparseable => Raise ValueError
  end.

Fixpoint mapM {A B : Type} (f : A -> result B) (l : list A) : result (list B) :=
  match l with
  | [] => Ok []
  | x :: l' => y ← f x; ys ← mapM f l'; Ok (y :: ys)
  end.

Record wtask : Type := mkWTask {
  w_row : pydict;
  w_start : Z;
  w_end : Z;
  w_startWeek : Z;
  w_endWeek : Z
}.

(** Lines 568-569: [(d - PROJECT_START).days // 7 + 1]. *)
Definition week_of (d : Z) : Z := (d - PROJECT_START) / 7 + 1.

(** Lines 562-569 on one row. *)
Definition prepare_weekly (r : pydict) : result wtask :=
  start ← to_date_strict (row_get r c_start);
  end_ ← to_date_strict (row_get r c_end);
  let start := default PROJECT_START start in
  let end_ := default start end_ in
  Ok (mkWTask r start end_ (week_of start) (week_of end_)).

(** Order of the values of one column under [sort_values]: missing
    values last, numbers and dates by value, strings by code point. A
    column mixing kinds cannot be ordered ([TypeError]). *)
Definition cell_cmp (a b : cell) : comparison :=
  match a, b with
  | NA, NA => Eq
  | NA, _ => Gt
  | _, NA => Lt
  | Num x, Num y => x ?= y
  | Date x, Date y => x ?= y
  | Str x, Str y => String.compare x y
  | _, _ => Eq
  end.

Definition same_kind (a b : cell) : bool :=
  match a, b with
  | NA, _ | _, NA => true
  | Num _, Num _ | Str _, Str _ | Date _, Date _ => true
  | _, _ => false
  end.

Fixpoint sortable (l : list cell) : bool :=
  match l with
  | [] => true
  | x :: l' => forallb (same_kind x) l' && sortable l'
  end.

Definition need_sortable (c : string) (df : DataFrame) : result unit :=
  _ ← need c df;
  if sortable ((fun r => row_get r c) <$> rows df) then Ok tt
  else Raise TypeError.

(** Order of [sort_values(["開始Week", "Phase"])]. *)
Definition wtask_le (a b : wtask) : bool :=
  not_gt (lex (w_startWeek a ?= w_startWeek b)
            (cell_cmp (row_get (w_row a) c_Phase) (row_get (w_row b) c_Phase))).

(** Lines 579-583. *)
Definition week_label (w : Z) : string :=
  let week_start := PROJECT_START + w * 7 in
  let month := month_of week_start in
  let week_of_month := (day_of week_start - 1) / 7 + 1 in
  str_small month +:+ "月" +:+ str_small week_of_month +:+ "週目".

Definition week_labels (max_week : Z) : list string :=
  week_label <$> seqZ 0 max_week.

Definition weekly_mark (status : string) (start_w end_w w : Z) : string :=
  let mark := if String.eqb status st_done then mark_done else mark_span in
  if (start_w - 1 <=? w) && (w <=? end_w - 1) then mark else EmptyString.

(** Lines 587-608 for the row numbered [no]. *)
Definition weekly_row (cols labels : list string) (no : Z) (t : wtask) : pydict :=
  let start_w := w_startWeek t in
  let end_w := w_endWeek t in
  let status := status_of cols (w_row t) in
  let row_data :=
    [ (c_No, Num no);
      (c_Phase, row_get (w_row t) c_Phase);
      (c_category, row_get (w_row t) c_category);
      (c_title, row_get (w_row t) c_title);
      (c_owner, row_get (w_row t) c_owner);
      (c_status, Str status);
      (c_start, Date (w_start t));
      (c_end, Date (w_end t)) ] in
  fill_cells (fun w => Str (weekly_mark status start_w end_w w))
    0 labels row_data.

Definition build_schedule_table_weekly (df : DataFrame) : result DataFrame :=
  if df_empty df then Ok empty_frame
  else
    (* lines 562-563 *)
    _ ← need c_start df;
    _ ← mapM (fun r => to_date_strict (row_get r c_start)) (rows df);
    _ ← need c_end df;
    tasks ← mapM prepare_weekly (rows df);
    (* line 571 *)
    _ ← need_sortable c_Phase df;
    let tasks := sort_values wtask_le tasks in
    let max_week := series_max (w_endWeek <$> tasks) in
    let week_labels := week_labels max_week in
    (* lines 597-599: [row[c]] on a label that is not a column *)
    _ ← need c_category df;
    _ ← need c_title df;
    _ ← need c_owner df;
    finish (number_from (weekly_row (columns df) week_labels) 1 tasks).

(** ** Numbering of the list view (src/app.py, lines 808-823, 880-889) *)

Definition view_le (a b : pydict) : bool :=
  not_gt (lex (cell_cmp (row_get a c_start) (row_get b c_start))
            (lex (cell_cmp (row_get a c_Phase) (row_get b c_Phase))
               (cell_cmp (row_get a c_title) (row_get b c_title)))).

Definition astype_str_if_present (df : DataFrame) (col : string) : DataFrame :=
  if mem col (columns df)
  then assign col (fun r => astype_str (row_get r col)) df
  else df.

(** [list_df]: the sorted view with its positional index kept as
    [_orig_index] and a fresh leading [No.] column. *)
Definition list_row (cols : list string) (i : Z) (r : pydict) : pydict :=
  (c_No, Num (i + 1)) :: (c_orig_index, Num i) :: reindex cols r.

Definition list_view (view_df : DataFrame) : result DataFrame :=
  (* lines 811-817 *)
  let df :=
    if mem c_start (columns view_df)
    then assign c_start (fun r => to_datetime_coerce (row_get r c_start)) view_df
    else view_df in
  let df := foldl astype_str_if_present df [c_Phase; c_title] in
  (* line 820 *)
  _ ← need c_start df;
  _ ← need c_Phase df;
  _ ← need c_title df;
  let sorted := sort_values view_le (rows df) in
  (* lines 880-886 *)
  let cols := filter (fun c => negb (String.eqb c c_No)) (columns df) in
  Ok (mkFrame (c_No :: c_orig_index :: cols)
        (number_from (list_row cols) 0 sorted)).

End Program.

(** ** A concrete reading of the library functions

    ISO dates ([YYYY-MM-DD]) and unsigned decimal numerals are parsed, an
    integer given as a date is a count of nanoseconds since 1970-01-01, and
    every other string is taken as unparseable. The examples below only
    use strings of the two parsed shapes. *)

Module Concrete.

Definition digit_val (a : Ascii.ascii) : option Z :=
  let n := Z.of_N (Ascii.N_of_ascii a) in
  if (48 <=? n) && (n <=? 57) then Some (n - 48) else None.

Fixpoint digits (acc : Z) (s : string) : option Z :=
  match s with
  | EmptyString => Some acc
  | String a s' =>
      match digit_val a with
      | Some v => digits (acc * 10 + v) s'
      | None => None
      end
  end.

Definition parse_decimal (s : string) : option Z :=
  match s with
  | EmptyString => None
  | _ => digits 0 s
  end.

Definition parse_iso (s : string) : option Z :=
  if (String.length s =? 10)%nat
     && String.eqb (String.substring 4 1 s) "-" && String.eqb (String.substring 7 1 s) "-"
  then
    match parse_decimal (String.substring 0 4 s), parse_decimal (String.substring 5 2 s),
          parse_decimal (String.substring 8 2 s) with
    | Some y, Some m, Some d =>
        if (1 <=? y) && (1 <=? m) && (m <=? 12) && (1 <=? d)
           && (d <=? _days_in_month y m)
        then Some (date y m d) else None
    | _, _, _ => None
    end
  else None.

Definition is_space (a : Ascii.ascii) : bool :=
  let n := Ascii.N_of_ascii a in
  ((9 <=? n) && (n <=? 13) || (n =? 32))%N.

Fixpoint lstrip (s : string) : string :=
  match s with
  | String a s' => if is_space a then lstrip s' else s
  | EmptyString => s
  end.

Fixpoint rstrip (s : string) : string :=
  match s with
  | String a s' =>
      match rstrip s' with
      | EmptyString => if is_space a then EmptyString else String a EmptyString
      | t => String a t
      end
  | EmptyString => s
  end.

Definition py_str_cell (c : cell) : string :=
  match c with
  | NA => "nan"
  | Num n => pretty n
  | Str s => s
  | Date d =>
      pretty (year_of d) +:+ "-" +:+ pad2 (month_of d) +:+ "-" +:+ pad2 (day_of d)
  end.

#[global, refine] Instance pandas : Pandas := {|
  parse_datetime c :=
    match c with
    | Date d => Parsed d
    | NA => Missing
    | Str s => from_option Parsed Unparseable (parse_iso s)
    | Num n =>
        if (- 2 ^ 63 <? n) && (n <? 2 ^ 63)
        then Parsed (date 1970 1 1 + n / 86400000000000)
        else Unparseable
    end;
  parse_number c :=
    match c with
    | Num n => Some n
    | Str s => parse_decimal s
    | NA | Date _ => None
    end;
  py_str := py_str_cell;
  strip s := rstrip (lstrip s)
|}.
Proof. all: reflexivity. Defined.

End Concrete.

(** ** Vocabulary of the statements *)

(** What the sort needs of a three-way comparison. *)
Record order_like {A : Type} (cmp : A -> A -> comparison) : Prop := {
  ol_antisym : forall a b, cmp b a = CompOpp (cmp a b);
  ol_trans : forall a b c, cmp a b = Lt -> cmp b c = Lt -> cmp a c = Lt;
  ol_eq_l : forall a b c, cmp a b = Eq -> cmp a c = cmp b c
}.

(** The columns each builder indexes without a default. *)
Definition daily_ready (df : DataFrame) : bool :=
  mem c_Phase (columns df) && mem c_title (columns df)
  && mem c_start (columns df) && mem c_end (columns df).

(** The cells of the grid columns [labels] of a row that carry a marker. *)
Definition marked (r : pydict) (labels : list string) : list string :=
  filter (fun c => row_get r c <> Str EmptyString) labels.

(** The last week of the project year whose label is still new: from week
    53 on the labels of [week_label] repeat. *)
Definition LAST_DISTINCT_WEEK : Z := 52.

(** Strings by code point, and the display order of the daily grid:
    start date, then phase, then title. *)
Definition str_lt (a b : string) : Prop := String.compare a b = Lt.

Definition task_before (a b : task) : Prop :=
  t_start a < t_start b
  \/ (t_start a = t_start b
      /\ (str_lt (t_Phase a) (t_Phase b)
          \/ (t_Phase a = t_Phase b
              /\ (str_lt (t_title a) (t_title b) \/ t_title a = t_title b)))).

(** The pure part of [prepare_weekly]: lines 565-569 on a row whose two
    dates were read without error. *)
Definition weekly_task `{Pandas} (r : pydict) : wtask :=
  let start := default PROJECT_START (to_date (row_get r c_start)) in
  let end_ := default start (to_date (row_get r c_end)) in
  mkWTask r start end_ (week_of start) (week_of end_).

Definition parses `{Pandas} (c : cell) : bool :=
  match parse_datetime c with
  | Unparseable => false
  | Parsed _ | Missing => true
  end.

(** What the weekly builder indexes without a default, reads without
    [errors="coerce"], or sorts. *)
Definition weekly_ready `{Pandas} (df : DataFrame) : bool :=
  mem c_start (columns df) && mem c_end (columns df)
  && mem c_Phase (columns df) && mem c_category (columns df)
  && mem c_title (columns df) && mem c_owner (columns df)
  && forallb (fun r => parses (row_get r c_start) && parses (row_get r c_end))
       (rows df)
  && sortable ((fun r => row_get r c_Phase) <$> rows df).

(** The columns [load_tasks] indexes without a default, looked up in the
    frame made of the sheet. *)
Definition has_required (data : list pydict) : bool :=
  mem c_status (columns (sheet_frame data))
  && mem c_Phase (columns (sheet_frame data))
  && mem c_title (columns (sheet_frame data)).

(** A day-number cell within the schedule bounds. *)
Definition day_ok (r : pydict) (c : string) : Prop :=
  exists n : Z, row_get r c = Num n /\ 1 <= n <= MAX_SCHEDULE_DAYS.

(** [df] has the rows of [df0], each rewritten in a way that satisfies
    [P] (before, after). *)
Definition tracks (df0 df : DataFrame) (P : pydict -> pydict -> Prop) : Prop :=
  exists g : pydict -> pydict,
    rows df = g <$> rows df0 /\ forall r, P r (g r).

(** Only the three day-number cells differ. *)
Definition day_cells_only (r r' : pydict) : Prop :=
  forall c, c <> c_Day -> c <> c_startDay -> c <> c_endDay ->
    row_get r' c = row_get r c.

(** ** Sample sheets and frames *)

Module Samples.

Import Concrete.

Definition task_row (phase title status : string) (start end_ : cell) : pydict :=
  [ (c_Phase, Str phase); (c_category, Str "物件"); (c_title, Str title);
    (c_owner, Str "副店長"); (c_status, Str status);
    (c_start, start); (c_end, end_) ].

Definition task_columns : list string :=
  [c_Phase; c_category; c_title; c_owner; c_status; c_start; c_end].

(** One single-day task, one three-day task and one task entered with its
    end before its start. *)
Definition three_tasks : DataFrame :=
  mkFrame task_columns
    [ task_row "Phase2-構築" "内装" "完了" (Date (date 2025 12 5)) (Date (date 2025 12 1));
      task_row "Phase1-設計" "契約" "未着手" (Date (date 2025 11 25)) (Date (date 2025 11 25));
      task_row "Phase1-設計" "図面" "進行中" (Date (date 2025 11 25)) (Date (date 2025 11 27)) ].

(** A task entered with its end before its start (2025-12-05 to
    2025-12-01). *)
Definition inverted : DataFrame :=
  mkFrame task_columns
    [ task_row "Phase2-構築" "内装" "進行中" (Date (date 2025 12 5)) (Date (date 2025 12 1)) ].

(** A task that lies wholly before the project epoch. *)
Definition before_epoch : DataFrame :=
  mkFrame task_columns
    [ task_row "Phase1-設計" "下見" "完了" (Date (date 2025 11 1)) (Date (date 2025 11 1)) ].

(** A task that ends 200 days after the epoch. *)
Definition long_task : DataFrame :=
  mkFrame task_columns
    [ task_row "Phase4-仕上げ" "開店" "未着手" (Date (PROJECT_START + 190)) (Date (PROJECT_START + 200)) ].

(** A first-week task and a task one year later, in week 53. *)
Definition year_apart : DataFrame :=
  mkFrame task_columns
    [ task_row "Phase1-設計" "契約" "未着手" (Date (date 2025 11 25)) (Date (date 2025 11 25));
      task_row "Phase4-仕上げ" "一周年" "未着手" (Date (date 2026 11 24)) (Date (date 2026 11 24)) ].

(** Sheets as [get_all_records] returns them. *)
Definition sheet_without_status : list pydict :=
  [ [ (c_Phase, Str "Phase1-設計"); (c_title, Str "契約") ] ].

Definition sheet_minimal : list pydict :=
  [ [ (c_Phase, Str "Phase1-設計"); (c_title, Str "契約"); (c_status, Str EmptyString) ];
    [ (c_Phase, Str "Phase2-構築"); (c_title, Str "内装"); (c_status, Str "完了") ] ].

Definition sheet_day_500 : list pydict :=
  [ [ (c_Phase, Str "Phase1-設計"); (c_title, Str "契約"); (c_status, Str "進行中");
      (c_startDay, Num 500) ] ].

Definition sheet_disagreeing : list pydict :=
  [ [ (c_Phase, Str "Phase1-設計"); (c_title, Str "契約"); (c_status, Str "進行中");
      (c_startDay, Num 5); (c_endDay, Num 5);
      (c_start, Str "2025-11-25"); (c_end, Str "2025-11-25") ] ].

(** The grids and frames the program computes on the samples. *)
Definition value_of (x : result DataFrame) : DataFrame :=
  match x with
  | Ok df => df
  | Raise _ => empty_frame
  end.

Definition three_tasks_grid : DataFrame :=
  value_of (build_schedule_table three_tasks).

Definition loaded_day_500 : DataFrame := value_of (load_tasks sheet_day_500).

Definition loaded_minimal : DataFrame := value_of (load_tasks sheet_minimal).

Definition no_tasks : DataFrame := value_of (load_tasks []).

End Samples.

(** ** [fade_past_days] (src/app.py, lines 419-450) *)

Definition is_slash (a : Ascii.ascii) : bool :=
  Ascii.eqb a (Ascii.ascii_of_N 47).

Fixpoint has_slash (s : string) : bool :=
  match s with
  | EmptyString => false
  | String a s' => is_slash a || has_slash s'
  end.

(** [datetime.strptime(s, "%m/%d")]: the month and the day it reads (the
    year it gives is 1900), [None] when it raises [ValueError]. *)
Class Strptime : Type := {
  strptime_md : string -> option (Z * Z);
  strptime_md_label : forall m d,
    1 <= m <= 12 -> 1 <= d <= _days_in_month 1900 m ->
    strptime_md (pad2 m +:+ "/" +:+ pad2 d) = Some (m, d);
  strptime_md_no_slash : forall s, has_slash s = false -> strptime_md s = None
}.

Section Fade.
Context `{Strptime}.

(** Line 427. *)
Definition fade_fixed_cols : list string :=
  [c_No; c_Phase; c_category; c_title; c_owner; c_start; c_end].

Definition fade_style : string := "background-color: rgba(150, 150, 150, 0.25);".

(** Line 430: a frame of empty strings with the index and columns of
    [df]. *)
Definition blank_styles (df : DataFrame) : DataFrame :=
  mkFrame (columns df)
    ((fun _ => (fun c => (c, Str EmptyString)) <$> columns df) <$> rows df).

(** Lines 433-448 for one column. *)
Definition fade_column (today : Z) (styles : DataFrame) (col : string) : DataFrame :=
  if mem col fade_fixed_cols then styles
  else
    match strptime_md col with
    | None => styles
    | Some (m, d) =>
        let col_date := date (year_of PROJECT_START) m d in
        if col_date <? today
        then assign col (fun _ => Str fade_style) styles
        else assign col (fun _ => Str EmptyString) styles
    end.

(** [today] is [date.today()]. *)
Definition fade_past_days (today : Z) (df : DataFrame) : DataFrame :=
  foldl (fade_column today) (blank_styles df) (columns df).

End Fade.

(** A reading of [strptime] on ASCII digits. *)
Module ConcreteStrptime.

Definition digit_of (a : Ascii.ascii) : option Z :=
  let n := Z.of_N (Ascii.N_of_ascii a) in
  if (48 <=? n) && (n <=? 57) then Some (n - 48) else None.

(** [3[0-1]|[1-2]\d|0[1-9]|[1-9]| [1-9]], then the end of the string. *)
Definition parse_day (s : string) : option Z :=
  match s with
  | String a EmptyString =>
      match digit_of a with
      | Some x => if 1 <=? x then Some x else None
      | None => None
      end
  | String a (String b EmptyString) =>
      match digit_of a, digit_of b with
      | Some x, Some y =>
          if ((x =? 3) && (y <=? 1)) || ((1 <=? x) && (x <=? 2))
             || ((x =? 0) && (1 <=? y))
          then Some (10 * x + y) else None
      | None, Some y =>
          if Ascii.eqb a (Ascii.ascii_of_N 32) && (1 <=? y) then Some y else None
      | _, _ => None
      end
  | _ => None
  end.

(** [1[0-2]|0[1-9]|[1-9]] *)
Definition month_1 (a : Ascii.ascii) : option Z :=
  match digit_of a with
  | Some x => if 1 <=? x then Some x else None
  | None => None
  end.

Definition month_2 (a b : Ascii.ascii) : option Z :=
  match digit_of a, digit_of b with
  | Some x, Some y =>
      if ((x =? 1) && (y <=? 2)) || ((x =? 0) && (1 <=? y))
      then Some (10 * x + y) else None
  | _, _ => None
  end.

Definition valid_1900 (m d : option Z) : option (Z * Z) :=
  match m, d with
  | Some m, Some d => if d <=? _days_in_month 1900 m then Some (m, d) else None
  | _, _ => None
  end.

Definition parse_md (s : string) : option (Z * Z) :=
  match s with
  | String a (String b rest) =>
      if is_slash b then valid_1900 (month_1 a) (parse_day rest)
      else
        match rest with
        | String c rest' =>
            if is_slash c then valid_1900 (month_2 a b) (parse_day rest')
            else None
        | EmptyString => None
        end
  | _ => None
  end.

Lemma parse_md_labels :
  forallb (fun m => forallb (fun d =>
      negb (d <=? _days_in_month 1900 m)
      || bool_decide (parse_md (pad2 m +:+ "/" +:+ pad2 d) = Some (m, d)))
    (seqZ 1 31)) (seqZ 1 12) = true.
Proof. vm_compute. reflexivity. Qed.

#[global, refine] Instance strptime : Strptime := {| strptime_md := parse_md |}.
Proof.
  - intros m d Hm Hd.
    pose proof parse_md_labels as Hall. rewrite forallb_forall in Hall.
    assert (Hmin : In m (seqZ 1 12)) by (apply list_elem_of_In, elem_of_seqZ; lia).
    specialize (Hall m Hmin). rewrite forallb_forall in Hall.
    assert (Hd31 : d <= 31).
    { assert (Hc : _days_in_month 1900 m <= 31); [|lia].
      assert (Hm' : m = 1 \/ m = 2 \/ m = 3 \/ m = 4 \/ m = 5 \/ m = 6 \/ m = 7
                    \/ m = 8 \/ m = 9 \/ m = 10 \/ m = 11 \/ m = 12) by lia.
      repeat (destruct Hm' as [->|Hm']; [vm_compute; discriminate|]).
      subst m. vm_compute. discriminate. }
    assert (Hdin : In d (seqZ 1 31)) by (apply list_elem_of_In, elem_of_seqZ; lia).
    specialize (Hall d Hdin). apply orb_prop in Hall as [Hall|Hall].
    + apply negb_true_iff, Z.leb_gt in Hall. lia.
    + by apply bool_decide_eq_true in Hall.
  - intros s Hs. unfold parse_md.
    destruct s as [|a [|b rest]]; try done. simpl in Hs.
    apply orb_false_iff in Hs as [_ Hs]. apply orb_false_iff in Hs as [Hb Hs].
    rewrite Hb. destruct rest as [|c rest']; [done|]. simpl in Hs.
    apply orb_false_iff in Hs as [Hc _]. by rewrite Hc.
Defined.

End ConcreteStrptime.

(** ** The session handlers (src/app.py, lines 950-1074)

    The add-task form, the delete button and the save button of the edit
    tab, as functions of the frame held in the session. *)

(** What a handler leaves: a frame, an exception, or a write to a row
    label [i] that is not in the index. pandas then adds a row with that
    label; such a frame no longer has the index 0..n-1 and is not
    followed further. *)
Inductive outcome (A : Type) : Type :=
| Done (a : A)
| Raised (e : exn)
| OffIndex (i : Z).
Arguments Done {A} a.
Arguments Raised {A} e.
Arguments OffIndex {A} i.

Definition and_then {A B : Type} (m : outcome A) (f : A -> outcome B) : outcome B :=
  match m with
  | Done a => f a
  | Raised e => Raised e
  | OffIndex i => OffIndex i
  end.

Definition lift {A : Type} (m : result A) : outcome A :=
  match m with
  | Ok a => Done a
  | Raise e => Raised e
  end.

Section Handlers.
Context `{Pandas}.

(** [row[c]] on a row of a frame with the columns [cols]. *)
Definition row_at (cols : list string) (r : pydict) (c : string) : result cell :=
  if mem c cols then Ok (row_get r c) else Raise (KeyError c).

(** [int(x)] on a cell of [No.] or [_orig_index], two columns the
    program writes itself, as integers. [int] of NaN raises
    [ValueError] and [int] of a date [TypeError]; a string, which these
    columns do not hold, is read as not a number. *)
Definition int_of_cell (c : cell) : result Z :=
  match c with
  | Num n => Ok n
  | NA | Str _ => Raise ValueError
  | Date _ => Raise TypeError
  end.

(** *** The add-task form (lines 1044-1074) *)

Record task_form : Type := mkForm {
  f_phase : string;
  f_category : string;
  f_title : string;
  f_owner : string;
  f_status : string;
  f_start : Z;
  f_end : Z;
  f_detail : string
}.

(** Lines 1048-1066. *)
Definition new_row (f : task_form) : pydict :=
  let start_date := f_start f in
  let end_date := f_end f in
  let end_date := if end_date <? start_date then start_date else end_date in
  let start_day := start_date - PROJECT_START + 1 in
  let end_day := end_date - PROJECT_START + 1 in
  [ (c_Day, Num start_day);
    (c_Phase, Str (f_phase f));
    (c_category, Str (f_category f));
    (c_title, Str (f_title f));
    (c_detail, Str (f_detail f));
    (c_owner, Str (f_owner f));
    (c_status, Str (f_status f));
    (c_startDay, Num start_day);
    (c_endDay, Num end_day);
    (c_start, Date start_date);
    (c_end, Date end_date) ].

(** [pd.concat([df, pd.DataFrame([r])], ignore_index=True)] *)
Definition concat_row (df : DataFrame) (r : pydict) : DataFrame :=
  mkFrame (foldl (fun cs k => add_col k cs) (columns df) (keys r))
    (rows df ++ [r]).

(** The frame of the session after the form is submitted: an empty title
    is refused and nothing changes. *)
Definition add_task (df : DataFrame) (f : task_form) : DataFrame :=
  match f_title f with
  | EmptyString => df
  | _ => concat_row df (new_row f)
  end.

(** *** The delete button (lines 977-992) *)

(** The label of a task in the select box. *)
Definition delete_label_of (no : Z) (title owner : cell) : string :=
  pretty no +:+ ": " +:+ py_str title +:+ "（" +:+ py_str owner +:+ "）".

(** One entry of the dict comprehension of lines 977-980. *)
Definition delete_entry (cols : list string) (r : pydict) : result (string * cell) :=
  no ← row_at cols r c_No ≫= int_of_cell;
  title ← row_at cols r c_title;
  owner ← row_at cols r c_owner;
  idx ← row_at cols r c_orig_index ≫= int_of_cell;
  Ok (delete_label_of no title owner, Num idx).

Definition delete_options (list_df : DataFrame) : result pydict :=
  entries ← mapM (delete_entry (columns list_df)) (rows list_df);
  Ok (foldl (fun d e => dict_set e.1 e.2 d) [] entries).

(** [df.drop(index=i).reset_index(drop=True)] *)
Definition drop_index (i : Z) (df : DataFrame) : result DataFrame :=
  if (0 <=? i) && (i <? Z.of_nat (length (rows df)))
  then Ok (mkFrame (columns df) (delete (Z.to_nat i) (rows df)))
  else Raise (KeyError (pretty i)).

(** Lines 983-989, for the label chosen in the select box. *)
Definition delete_task (base_df list_df : DataFrame) (chosen : string) : result DataFrame :=
  opts ← delete_options list_df;
  match dict_get chosen opts with
  | Some (Num target_idx) => drop_index target_idx base_df
  | _ => Raise (KeyError chosen)
  end.

(** *** The save button of the edit tab (lines 950-969) *)

(** [df.at[i, c] = v]; a label [c] that is not a column becomes one. *)
Definition at_set (i : Z) (c : string) (v : cell) (df : DataFrame) : outcome DataFrame :=
  if (0 <=? i) && (i <? Z.of_nat (length (rows df)))
  then Done (mkFrame (add_col c (columns df))
               (alter (dict_set c v) (Z.to_nat i) (rows df)))
  else OffIndex i.

(** Lines 957-962: the day number stored for an edited date. *)
Definition edited_day (c : cell) : Z :=
  let day_val :=
    match to_date c with
    | None => 1
    | Some d => d - PROJECT_START + 1
    end in
  Z.max 1 (Z.min MAX_SCHEDULE_DAYS day_val).

Definition edited_fields : list string :=
  [c_Phase; c_category; c_title; c_detail; c_owner; c_status; c_start; c_end].

(** Lines 965-967 for one column. *)
Definition overwrite (edited_cols : list string) (row : pydict) (orig_idx : Z)
    (m : outcome DataFrame) (col : string) : outcome DataFrame :=
  and_then m (fun base_df =>
    if mem col (columns base_df) && mem col edited_cols
    then at_set orig_idx col (row_get row col) base_df
    else Done base_df).

(** Lines 954-967 for one row of the edited frame. *)
Definition save_row (edited_cols : list string) (m : outcome DataFrame)
    (row : pydict) : outcome DataFrame :=
  and_then m (fun base_df =>
  and_then (lift (row_at edited_cols row c_orig_index ≫= int_of_cell)) (fun orig_idx =>
  and_then (lift (row_at edited_cols row c_start)) (fun s =>
  and_then (at_set orig_idx c_startDay (Num (edited_day s)) base_df) (fun base_df =>
  and_then (lift (row_at edited_cols row c_end)) (fun e =>
  and_then (at_set orig_idx c_endDay (Num (edited_day e)) base_df) (fun base_df =>
  foldl (overwrite edited_cols row orig_idx) (Done base_df) edited_fields)))))).

(** Lines 951-969: the frame put back into the session and saved. *)
Definition save_edits (base_df edited_df : DataFrame) : outcome DataFrame :=
  foldl (save_row (columns edited_df)) (Done base_df) (rows edited_df).

End Handlers.

(** The row of the view that [list_view] sorts: lines 811-817 on one row
    of a frame that has the three columns. *)
Definition view_row `{Pandas} (r : pydict) : pydict :=
  let r := dict_set c_start (to_datetime_coerce (row_get r c_start)) r in
  let r := dict_set c_Phase (astype_str (row_get r c_Phase)) r in
  dict_set c_title (astype_str (row_get r c_title)) r.

(** The label [reset_index] gives the former index. *)
Definition c_index : string := "index".

(** Further sample inputs. *)
Module MoreSamples.

Import Concrete.

(** A form filled in with an end date before its start date, a year
    after the project start. *)
Definition late_form : task_form :=
  mkForm "Phase4-仕上げ" "運営" "一周年" "店長" "未着手"
    (date 2026 11 24) (date 2026 11 20) EmptyString.

(** A task from the second day of the second week to the first day of
    the third. *)
Definition two_week_row : pydict :=
  Samples.task_row "Phase1-設計" "図面" "進行中"
    (Date (date 2025 12 3)) (Date (date 2025 12 9)).

(** Two rows of the editor, as the list view numbers them. *)
Definition edited_two : DataFrame :=
  mkFrame (c_No :: c_orig_index :: Samples.task_columns)
    [ (c_No, Num 1) :: (c_orig_index, Num 0)
        :: Samples.task_row "Phase1-設計" "契約" "完了"
             (Date (date 2025 11 25)) (Date (date 2025 11 26));
      (c_No, Num 2) :: (c_orig_index, Num 1)
        :: Samples.task_row "Phase1-設計" "図面" "進行中"
             (Date (date 2025 11 25)) (Date (date 2025 11 27)) ].

(** A sheet row whose start date is not a date. *)
Definition unreadable_start : DataFrame :=
  mkFrame Samples.task_columns
    [ Samples.task_row "Phase1-設計" "契約" "未着手"
        (Str "未定") (Date (date 2025 11 25)) ].

(** A frame without the owner column. *)
Definition without_owner : DataFrame :=
  mkFrame [c_Phase; c_category; c_title; c_status; c_start; c_end]
    [ [ (c_Phase, Str "Phase1-設計"); (c_category, Str "物件");
        (c_title, Str "契約"); (c_status, Str "未着手");
        (c_start, Date (date 2025 11 25)); (c_end, Date (date 2025 11 26)) ] ].

End MoreSamples.

(** What the save button leaves of the stored record [r] after the row
    [row] of the editor was written over it: the two day numbers, then
    the edited columns that both frames have. *)
Definition saved_record `{Pandas} (base_cols edited_cols : list string)
    (row r : pydict) : pydict :=
  foldl (fun r c => if mem c base_cols && mem c edited_cols
                    then dict_set c (row_get row c) r else r)
    (dict_set c_endDay (Num (edited_day (row_get row c_end)))
       (dict_set c_startDay (Num (edited_day (row_get row c_start))) r))
    edited_fields.

(** The style [fade_past_days] gives the cells of the column [col], or
    [None] when it leaves the column as it is. *)
Definition column_style `{Strptime} (today : Z) (col : string) : option string :=
  if mem col fade_fixed_cols then None
  else
    match strptime_md col with
    | None => None
    | Some (m, d) =>
        Some (if date (year_of PROJECT_START) m d <? today
              then fade_style else EmptyString)
    end.

(** The first day of the year after the project start, and the day a
    label of the daily grid stands for once it is read back in the year
    of the project start: the grid's days of the next year fall a year
    early. *)
Definition NEXT_YEAR : Z := date (year_of PROJECT_START + 1) 1 1.

Definition read_back (d : Z) : Z :=
  if d <? NEXT_YEAR then d else d - 365.

(** The sort keys of a row of the list view, typed: the start date with
    [None] for a missing date, and the two strings. *)
Definition key_start (r : pydict) : option Z :=
  match row_get r c_start with
  | Date d => Some d
  | _ => None
  end.

Definition key_str (c : string) (r : pydict) : string :=
  match row_get r c with
  | Str s => s
  | _ => EmptyString
  end.

(** Dates with the missing ones last. *)
Definition date_cmp (a b : option Z) : comparison :=
  match a, b with
  | None, None => Eq
  | None, Some _ => Gt
  | Some _, None => Lt
  | Some x, Some y => x ?= y
  end.

Definition view_key_cmp (a b : pydict) : comparison :=
  lex (date_cmp (key_start a) (key_start b))
    (lex (String.compare (key_str c_Phase a) (key_str c_Phase b))
       (String.compare (key_str c_title a) (key_str c_title b))).

(** A row as lines 811-817 leave it. *)
Definition view_typed (r : pydict) : Prop :=
  (row_get r c_start = NA \/ exists d, row_get r c_start = Date d)
  /\ (exists s, row_get r c_Phase = Str s)
  /\ exists s, row_get r c_title = Str s.

(** * Properties *)

(** ** Dicts and frames *)

Lemma mem_spec (k : string) (l : list string) : mem k l = true <-> k ∈ l.
Proof.
  unfold mem. rewrite existsb_exists. split.
  - intros (x & Hx & Heq). apply String.eqb_eq in Heq. subst.
    by apply list_elem_of_In.
  - intros Hk. exists k. split; [by apply list_elem_of_In | apply String.eqb_refl].
Qed.

Lemma mem_false (k : string) (l : list string) : mem k l = false <-> k ∉ l.
Proof.
  rewrite <- mem_spec. destruct (mem k l); split; intros; congruence.
Qed.

Lemma dict_get_set (k k' : string) (v : cell) (d : pydict) :
  dict_get k' (dict_set k v d)
  = if String.eqb k k' then Some v else dict_get k' d.
Proof.
  induction d as [|[k0 v0] d IH]; simpl.
  - reflexivity.
  - destruct (String.eqb_spec k0 k) as [->|Hne]; simpl.
    + destruct (String.eqb k k'); reflexivity.
    + rewrite IH. destruct (String.eqb_spec k0 k') as [->|Hne'].
      * destruct (String.eqb_spec k k'); congruence.
      * reflexivity.
Qed.

Lemma row_get_set_eq (k : string) (v : cell) (d : pydict) :
  row_get (dict_set k v d) k = v.
Proof. unfold row_get. by rewrite dict_get_set, String.eqb_refl. Qed.

Lemma row_get_set_ne (k k' : string) (v : cell) (d : pydict) :
  k <> k' -> row_get (dict_set k v d) k' = row_get d k'.
Proof.
  intros Hne. unfold row_get. rewrite dict_get_set.
  by destruct (String.eqb_spec k k').
Qed.

Lemma keys_set_fresh (k : string) (v : cell) (d : pydict) :
  k ∉ keys d -> keys (dict_set k v d) = keys d ++ [k].
Proof.
  induction d as [|[k0 v0] d IH]; simpl; intros Hk; [done|].
  apply not_elem_of_cons in Hk as [Hne Hk].
  destruct (String.eqb_spec k0 k); [congruence|].
  simpl. by rewrite <- IH.
Qed.

Lemma fill_cells_keys (f : Z -> cell) (i : Z) (ls : list string) (d : pydict) :
  NoDup (keys d ++ ls) -> keys (fill_cells f i ls d) = keys d ++ ls.
Proof.
  revert i d. induction ls as [|l ls IH]; intros i d Hnd; simpl.
  - by rewrite app_nil_r.
  - assert (Hl : l ∉ keys d).
    { apply NoDup_app in Hnd as (_ & Hdis & _). intros Hin.
      apply (Hdis _ Hin). by left. }
    rewrite IH; rewrite keys_set_fresh by done.
    + by rewrite <- app_assoc.
    + by rewrite <- app_assoc.
Qed.

Lemma fill_cells_get_old (f : Z -> cell) (i : Z) (ls : list string)
    (d : pydict) (k : string) :
  k ∉ ls -> dict_get k (fill_cells f i ls d) = dict_get k d.
Proof.
  revert i d. induction ls as [|l ls IH]; intros i d Hk; simpl; [done|].
  apply not_elem_of_cons in Hk as [Hne Hk].
  rewrite IH by done. rewrite dict_get_set.
  destruct (String.eqb_spec l k); congruence.
Qed.

Lemma fill_cells_get_new (f : Z -> cell) (i : Z) (ls : list string)
    (d : pydict) (j : nat) (l : string) :
  NoDup ls -> ls !! j = Some l ->
  dict_get l (fill_cells f i ls d) = Some (f (i + Z.of_nat j)).
Proof.
  revert i d j. induction ls as [|l0 ls IH]; intros i d j Hnd Hj; [done|].
  apply NoDup_cons in Hnd as [Hl0 Hnd]. destruct j as [|j]; simpl in *.
  - injection Hj as ->. rewrite fill_cells_get_old by done.
    rewrite dict_get_set, String.eqb_refl. f_equal. f_equal. lia.
  - rewrite (IH _ _ j) by done. f_equal. f_equal. lia.
Qed.

Lemma reindex_keys (r : pydict) : NoDup (keys r) -> reindex (keys r) r = r.
Proof.
  unfold reindex. induction r as [|[k v] r IH]; simpl; intros Hnd; [done|].
  apply NoDup_cons in Hnd as [Hk Hnd]. f_equal.
  - unfold row_get. simpl. by rewrite String.eqb_refl.
  - rewrite <- (IH Hnd) at 2. apply list_fmap_ext. intros i c Hc.
    f_equal. unfold row_get. simpl.
    destruct (String.eqb_spec k c) as [->|]; [|done].
    exfalso. apply Hk. unfold keys. eapply list_elem_of_lookup_2. exact Hc.
Qed.

Lemma add_all_fresh (acc ks : list string) :
  NoDup (acc ++ ks) -> foldl (fun cs k => add_col k cs) acc ks = acc ++ ks.
Proof.
  revert acc. induction ks as [|k ks IH]; intros acc Hnd; simpl.
  - by rewrite app_nil_r.
  - assert (Hk : k ∉ acc).
    { apply NoDup_app in Hnd as (_ & Hdis & _). intros Hin.
      apply (Hdis _ Hin). by left. }
    unfold add_col at 2. apply mem_false in Hk. rewrite Hk.
    rewrite IH; by rewrite <- app_assoc.
Qed.

Lemma add_all_known (acc ks : list string) :
  (forall k, k ∈ ks -> k ∈ acc) ->
  foldl (fun cs k => add_col k cs) acc ks = acc.
Proof.
  induction ks as [|k ks IH]; intros Hin; simpl; [done|].
  unfold add_col at 2.
  assert (Hk : mem k acc = true) by (apply mem_spec, Hin; by left).
  rewrite Hk. apply IH. intros k' Hk'. apply Hin. by right.
Qed.

Lemma union_keys_uniform (ks : list string) (recs : list pydict) :
  recs <> [] -> NoDup ks -> Forall (fun r => keys r = ks) recs ->
  union_keys recs = ks.
Proof.
  intros Hne Hnd Hall. unfold union_keys.
  destruct recs as [|r recs]; [done|]. simpl.
  apply Forall_cons in Hall as [Hr Hall]. rewrite Hr.
  rewrite (add_all_fresh [] ks) by done. simpl.
  clear Hne Hr. induction Hall as [|r' recs Hr' _ IH]; simpl; [done|].
  rewrite Hr'. rewrite add_all_known by done. exact IH.
Qed.

Lemma select_all (cols : list string) (out : list pydict) :
  select cols (mkFrame cols out) = Ok (mkFrame cols (reindex cols <$> out)).
Proof.
  unfold select. simpl.
  assert (Hnil : filter (fun c => mem c cols = false) cols = []).
  { assert (Hsub : forall l, (forall c, c ∈ l -> c ∈ cols) ->
        filter (fun c => mem c cols = false) l = []).
    { induction l as [|c l IH]; intros Hl; [done|].
      rewrite filter_cons_False.
      - apply IH. intros c' Hc'. apply Hl. by right.
      - assert (mem c cols = true) by (apply mem_spec, Hl; by left).
        congruence. }
    by apply Hsub. }
  by rewrite Hnil.
Qed.

(** The table built from rows that all carry the fixed columns followed by
    the same distinct grid labels. *)
Lemma finish_uniform (labels : list string) (out : list pydict) :
  out <> [] -> NoDup (fixed ++ labels) ->
  Forall (fun r => keys r = fixed ++ labels) out ->
  finish out = Ok (mkFrame (fixed ++ labels) out).
Proof.
  intros Hne Hnd Hall. unfold finish, DataFrame_of.
  rewrite (union_keys_uniform (fixed ++ labels)) by done. cbn [columns].
  assert (Hoth : filter (fun c => negb (mem c fixed)) (fixed ++ labels) = labels).
  { rewrite filter_app.
    assert (H1 : forall l : list string, (forall c, c ∈ l -> c ∈ fixed) ->
        filter (fun c => negb (mem c fixed)) l = []).
    { induction l as [|c l IH]; intros Hl; [done|].
      rewrite filter_cons_False.
      - apply IH. intros c' Hc'. apply Hl. by right.
      - assert (Hm : mem c fixed = true) by (apply mem_spec, Hl; by left).
        rewrite Hm. simpl. tauto. }
    assert (H2 : forall l : list string, (forall c, c ∈ l -> c ∉ fixed) ->
        filter (fun c => negb (mem c fixed)) l = l).
    { induction l as [|c l IH]; intros Hl; [done|].
      rewrite filter_cons_True.
      - f_equal. apply IH. intros c' Hc'. apply Hl. by right.
      - assert (Hm : mem c fixed = false) by (apply mem_false, Hl; by left).
        rewrite Hm. simpl. tauto. }
    rewrite H1 by done. rewrite H2; [done|].
    apply NoDup_app in Hnd as (_ & Hdis & _).
    intros c Hc Hf. by apply (Hdis c). }
  rewrite Hoth. rewrite select_all. f_equal. f_equal.
  clear Hne. induction Hall as [|r out' Hr _ IH]; [done|].
  rewrite fmap_cons, IH. f_equal.
  rewrite <- Hr. apply reindex_keys. by rewrite Hr.
Qed.

(** ** Comparisons and the stable sort *)

Lemma ol_eq_r {A : Type} (cmp : A -> A -> comparison) :
  order_like cmp -> forall a b c, cmp a b = Eq -> cmp c a = cmp c b.
Proof.
  intros O a b c Hab.
  rewrite (ol_antisym cmp O a c), (ol_antisym cmp O b c).
  f_equal. by apply (ol_eq_l cmp O).
Qed.

Lemma order_like_lex {A : Type} (c1 c2 : A -> A -> comparison) :
  order_like c1 -> order_like c2 ->
  order_like (fun a b => lex (c1 a b) (c2 a b)).
Proof.
  intros O1 O2. split.
  - intros a b. rewrite (ol_antisym c1 O1 a b), (ol_antisym c2 O2 a b).
    by destruct (c1 a b), (c2 a b).
  - intros a b c Hab Hbc.
    destruct (c1 a b) eqn:E1; simpl in Hab; try discriminate;
      destruct (c1 b c) eqn:E2; simpl in Hbc; try discriminate.
    + rewrite (ol_eq_l c1 O1 a b c E1), E2. simpl.
      by apply (ol_trans c2 O2 a b c).
    + by rewrite (ol_eq_l c1 O1 a b c E1), E2.
    + by rewrite <- (ol_eq_r c1 O1 b c a E2), E1.
    + by rewrite (ol_trans c1 O1 a b c E1 E2).
  - intros a b c Hab.
    destruct (c1 a b) eqn:E1; simpl in Hab; try discriminate.
    by rewrite (ol_eq_l c1 O1 a b c E1), (ol_eq_l c2 O2 a b c Hab).
Qed.

Lemma order_like_on {A B : Type} (f : A -> B) (cmp : B -> B -> comparison) :
  order_like cmp -> order_like (fun a b => cmp (f a) (f b)).
Proof.
  intros O. split; intros.
  - apply (ol_antisym cmp O).
  - by eapply (ol_trans cmp O).
  - by apply (ol_eq_l cmp O).
Qed.

Lemma order_like_Z : order_like Z.compare.
Proof.
  split.
  - intros a b. apply Z.compare_antisym.
  - intros a b c. rewrite !Z.compare_lt_iff. lia.
  - intros a b c Hab. apply Z.compare_eq in Hab. by subst.
Qed.

Lemma ascii_compare_refl (a : Ascii.ascii) : Ascii.compare a a = Eq.
Proof. apply N.compare_refl. Qed.

Lemma ascii_compare_trans (a b c : Ascii.ascii) :
  Ascii.compare a b = Lt -> Ascii.compare b c = Lt -> Ascii.compare a c = Lt.
Proof. unfold Ascii.compare. rewrite !N.compare_lt_iff. lia. Qed.

Lemma string_compare_trans (a b c : string) :
  String.compare a b = Lt -> String.compare b c = Lt -> String.compare a c = Lt.
Proof.
  revert b c. induction a as [|x a IH]; intros [|y b] [|z c]; simpl;
    try done.
  destruct (Ascii.compare x y) eqn:Exy; try done;
    destruct (Ascii.compare y z) eqn:Eyz; try done; intros Hab Hbc.
  - apply Ascii.compare_eq_iff in Exy, Eyz. subst.
    rewrite ascii_compare_refl. by eapply IH.
  - apply Ascii.compare_eq_iff in Exy. subst. by rewrite Eyz.
  - apply Ascii.compare_eq_iff in Eyz. subst. by rewrite Exy.
  - by rewrite (ascii_compare_trans x y z).
Qed.

Lemma order_like_string : order_like String.compare.
Proof.
  split.
  - intros a b. apply String.compare_antisym.
  - apply string_compare_trans.
  - intros a b c Hab. apply String.compare_eq_iff in Hab. by subst.
Qed.

Section SortFacts.
Context {A : Type} (cmp : A -> A -> comparison).

Let le (a b : A) : bool := not_gt (cmp a b).

Lemma insert_by_perm (x : A) (l : list A) : insert_by le x l ≡ₚ x :: l.
Proof.
  induction l as [|y l IH]; simpl; [done|].
  destruct (le x y); [done|]. rewrite IH. apply Permutation_swap.
Qed.

Lemma sort_values_perm (l : list A) : sort_values le l ≡ₚ l.
Proof.
  induction l as [|x l IH]; simpl; [done|].
  rewrite insert_by_perm. by rewrite IH.
Qed.

Lemma sort_values_length (l : list A) :
  length (sort_values le l) = length l.
Proof. apply Permutation_length, sort_values_perm. Qed.

Hypothesis O : order_like cmp.

Lemma le_total (a b : A) : le a b = false -> le b a = true.
Proof.
  unfold le. rewrite (ol_antisym cmp O a b). by destruct (cmp a b).
Qed.

Lemma le_trans (a b c : A) : le a b = true -> le b c = true -> le a c = true.
Proof.
  unfold le. intros Hab Hbc.
  destruct (cmp a b) eqn:E1; try done.
  - by rewrite (ol_eq_l cmp O a b c E1).
  - destruct (cmp b c) eqn:E2; try done.
    + by rewrite <- (ol_eq_r cmp O b c a E2), E1.
    + by rewrite (ol_trans cmp O a b c E1 E2).
Qed.

Lemma insert_by_sorted (x : A) (l : list A) :
  StronglySorted (fun a b => le a b = true) l ->
  StronglySorted (fun a b => le a b = true) (insert_by le x l).
Proof.
  induction 1 as [|y l Hs IH Hy]; simpl.
  - repeat constructor.
  - destruct (le x y) eqn:Hxy.
    + constructor; [by constructor|]. constructor; [done|].
      eapply Forall_impl; [exact Hy|]. intros z Hz. by eapply le_trans.
    + constructor; [done|].
      rewrite (insert_by_perm x l). constructor; [|done].
      by apply le_total.
Qed.

Lemma sort_values_sorted (l : list A) :
  StronglySorted (fun a b => le a b = true) (sort_values le l).
Proof.
  induction l as [|x l IH]; simpl; [constructor|].
  by apply insert_by_sorted.
Qed.
End SortFacts.

Lemma number_from_length {A B : Type} (f : Z -> A -> B) (n : Z) (l : list A) :
  length (number_from f n l) = length l.
Proof. revert n. induction l as [|x l IH]; intros n; simpl; [done|]. by rewrite IH. Qed.

Lemma number_from_lookup {A B : Type} (f : Z -> A -> B) (n : Z) (l : list A) (i : nat) :
  number_from f n l !! i = f (n + Z.of_nat i) <$> l !! i.
Proof.
  revert n i. induction l as [|x l IH]; intros n [|i]; simpl; try done.
  - by rewrite Z.add_0_r.
  - rewrite IH. do 2 f_equal. lia.
Qed.

Lemma number_from_Forall {A B : Type} (P : B -> Prop) (f : Z -> A -> B)
    (n : Z) (l : list A) :
  (forall i x, P (f i x)) -> Forall P (number_from f n l).
Proof.
  intros HP. revert n. induction l as [|x l IH]; intros n; simpl; constructor; auto.
Qed.

Lemma foldl_max_spec (x : Z) (l : list Z) :
  (forall y, y ∈ x :: l -> y <= foldl Z.max x l) /\ foldl Z.max x l ∈ x :: l.
Proof.
  revert x. induction l as [|z l IH]; intros x; simpl.
  - split; [|by left]. intros y Hy. apply list_elem_of_singleton in Hy. lia.
  - destruct (IH (Z.max x z)) as [Hub Hin]. split.
    + intros y Hy. apply elem_of_cons in Hy as [->|Hy].
      * specialize (Hub (Z.max x z)). etrans; [|apply Hub; by left]. lia.
      * apply elem_of_cons in Hy as [->|Hy].
        -- specialize (Hub (Z.max x z)). etrans; [|apply Hub; by left]. lia.
        -- apply Hub. by right.
    + apply elem_of_cons in Hin as [Heq|Hin].
      * rewrite Heq. destruct (Z.max_spec x z) as [[_ ->]|[_ ->]].
        -- right. by left.
        -- by left.
      * right. by right.
Qed.

Lemma series_max_ge (l : list Z) (x : Z) : x ∈ l -> x <= series_max l.
Proof.
  destruct l as [|y l]; [by intros ?%elem_of_nil|].
  apply (foldl_max_spec y l).
Qed.

Lemma series_max_in (l : list Z) : l <> [] -> series_max l ∈ l.
Proof.
  destruct l as [|y l]; [done|]. intros _. apply (foldl_max_spec y l).
Qed.

(** ** Grid labels *)

Lemma seqZ_prefix (n m : Z) :
  0 <= n <= m -> seqZ 0 n = take (Z.to_nat n) (seqZ 0 m).
Proof.
  intros Hn. replace m with (n + (m - n)) by lia.
  rewrite seqZ_app by lia. rewrite take_app_length'; [done|].
  rewrite length_seqZ. lia.
Qed.

Lemma date_labels_prefix (n : Z) :
  0 <= n <= MAX_SCHEDULE_DAYS ->
  date_labels n = take (Z.to_nat n) (date_labels MAX_SCHEDULE_DAYS).
Proof.
  intros Hn. unfold date_labels. rewrite <- fmap_take. f_equal.
  by apply seqZ_prefix.
Qed.

Lemma date_labels_max_NoDup : NoDup (fixed ++ date_labels MAX_SCHEDULE_DAYS).
Proof.
  apply (bool_decide_unpack (NoDup (fixed ++ date_labels MAX_SCHEDULE_DAYS))).
  vm_compute. exact I.
Qed.

Lemma date_labels_NoDup (n : Z) :
  0 <= n <= MAX_SCHEDULE_DAYS -> NoDup (fixed ++ date_labels n).
Proof.
  intros Hn. eapply sublist_NoDup; [apply date_labels_max_NoDup|].
  apply sublist_app; [done|]. rewrite date_labels_prefix by done.
  apply sublist_take.
Qed.

Lemma date_labels_length (n : Z) : length (date_labels n) = Z.to_nat n.
Proof. unfold date_labels. by rewrite length_fmap, length_seqZ. Qed.

Lemma date_labels_lookup (n : Z) (j : nat) :
  Z.of_nat j < n ->
  date_labels n !! j = Some (strftime_md (PROJECT_START + Z.of_nat j)).
Proof.
  intros Hj. unfold date_labels. rewrite list_lookup_fmap.
  by rewrite lookup_seqZ_lt.
Qed.

Lemma week_labels_prefix (n : Z) :
  0 <= n <= LAST_DISTINCT_WEEK ->
  week_labels n = take (Z.to_nat n) (week_labels LAST_DISTINCT_WEEK).
Proof.
  intros Hn. unfold week_labels. rewrite <- fmap_take. f_equal.
  by apply seqZ_prefix.
Qed.

Lemma week_labels_max_NoDup : NoDup (fixed ++ week_labels LAST_DISTINCT_WEEK).
Proof.
  apply (bool_decide_unpack (NoDup (fixed ++ week_labels LAST_DISTINCT_WEEK))).
  vm_compute. exact I.
Qed.

Lemma week_labels_NoDup (n : Z) :
  n <= LAST_DISTINCT_WEEK -> NoDup (fixed ++ week_labels n).
Proof.
  intros Hn. destruct (decide (0 <= n)) as [H0|H0].
  - eapply sublist_NoDup; [apply week_labels_max_NoDup|].
    apply sublist_app; [done|]. rewrite week_labels_prefix by done.
    apply sublist_take.
  - unfold week_labels. rewrite seqZ_nil by lia. rewrite fmap_nil, app_nil_r.
    eapply sublist_NoDup; [apply week_labels_max_NoDup|].
    by apply sublist_inserts_r.
Qed.

Lemma week_labels_length (n : Z) : length (week_labels n) = Z.to_nat n.
Proof. unfold week_labels. by rewrite length_fmap, length_seqZ. Qed.

Lemma week_labels_lookup (n : Z) (j : nat) :
  Z.of_nat j < n -> week_labels n !! j = Some (week_label (Z.of_nat j)).
Proof.
  intros Hj. unfold week_labels. rewrite list_lookup_fmap.
  by rewrite lookup_seqZ_lt.
Qed.

(** The labels of week 1 and of week 53 coincide. *)
Lemma week_label_repeats : week_label 52 = week_label 0.
Proof. reflexivity. Qed.

(** ** Counting marked cells *)

Lemma filter_none {A : Type} (P : A -> Prop) `{forall x, Decision (P x)} (l : list A) :
  (forall x, x ∈ l -> ~ P x) -> filter P l = [].
Proof.
  induction l as [|x l IH]; intros Hl; [done|].
  rewrite filter_cons_False by (apply Hl; by left).
  apply IH. intros y Hy. apply Hl. by right.
Qed.

Lemma filter_all {A : Type} (P : A -> Prop) `{forall x, Decision (P x)} (l : list A) :
  (forall x, x ∈ l -> P x) -> filter P l = l.
Proof.
  induction l as [|x l IH]; intros Hl; [done|].
  rewrite filter_cons_True by (apply Hl; by left).
  f_equal. apply IH. intros y Hy. apply Hl. by right.
Qed.

(** When the non-empty cells of a row are those of the grid positions
    [a..b-1], there are [b - a] of them. *)
Lemma marked_count (r : pydict) (f : Z -> string) (n a b : Z) :
  0 <= a <= b -> b <= n ->
  (forall j, 0 <= j < n -> row_get r (f j) <> Str EmptyString <-> a <= j < b) ->
  length (marked r (f <$> seqZ 0 n)) = Z.to_nat (b - a).
Proof.
  intros Hab Hbn Hcell. unfold marked.
  replace n with (a + ((b - a) + (n - b))) by lia.
  rewrite seqZ_app by lia. rewrite seqZ_app by lia.
  rewrite !fmap_app, !filter_app, !length_app.
  rewrite filter_none, filter_all, filter_none; simpl.
  - rewrite length_fmap, length_seqZ. lia.
  - intros c (j & -> & Hj)%list_elem_of_fmap. apply elem_of_seqZ in Hj.
    rewrite Hcell by lia. lia.
  - intros c (j & -> & Hj)%list_elem_of_fmap. apply elem_of_seqZ in Hj.
    rewrite Hcell by lia. lia.
  - intros c (j & -> & Hj)%list_elem_of_fmap. apply elem_of_seqZ in Hj.
    rewrite Hcell by lia. lia.
Qed.

(** ** The daily builder *)

Section Daily.
Context `{Pandas}.

Lemma need_ok (c : string) (df : DataFrame) :
  mem c (columns df) = true -> need c df = Ok tt.
Proof. unfold need. by intros ->. Qed.

Lemma need_inv (c : string) (df : DataFrame) (u : unit) :
  need c df = Ok u -> mem c (columns df) = true.
Proof. unfold need. by destruct (mem c (columns df)). Qed.

Lemma df_nonempty (df : DataFrame) : df_empty df = false -> rows df <> [].
Proof. unfold df_empty. by destruct (columns df), (rows df). Qed.

(** After lines 490-498 the dates are ordered and the offsets are the
    clipped day counts from the epoch. *)
Lemma prepare_spec (r : pydict) :
  t_start (prepare r) <= t_end (prepare r)
  /\ t_startDay (prepare r) = clip (t_start (prepare r) - PROJECT_START + 1)
  /\ t_endDay (prepare r) = clip (t_end (prepare r) - PROJECT_START + 1)
  /\ 1 <= t_startDay (prepare r) <= t_endDay (prepare r)
  /\ t_endDay (prepare r) <= MAX_SCHEDULE_DAYS.
Proof.
  unfold prepare. cbn [t_start t_end t_startDay t_endDay].
  set (s := default PROJECT_START (to_date (row_get r c_start))).
  set (e := default s (to_date (row_get r c_end))).
  unfold clip, MAX_SCHEDULE_DAYS.
  destruct (Z.ltb_spec e s); repeat split; lia.
Qed.

Lemma num_days_eq (tasks : list task) :
  num_days tasks
  = Z.max (BASE_END - PROJECT_START + 1)
      (Z.min (series_max (t_endDay <$> tasks)) MAX_SCHEDULE_DAYS).
Proof. unfold num_days. lia. Qed.

Lemma num_days_range (tasks : list task) :
  0 <= num_days tasks <= MAX_SCHEDULE_DAYS.
Proof.
  rewrite num_days_eq. unfold BASE_END, PROJECT_START, MAX_SCHEDULE_DAYS. lia.
Qed.

Lemma daily_row_keys (cols : list string) (n no : Z) (t : task) :
  0 <= n <= MAX_SCHEDULE_DAYS ->
  keys (daily_row cols (date_labels n) no t) = fixed ++ date_labels n.
Proof.
  intros Hn. unfold daily_row. rewrite fill_cells_keys; [done|].
  by apply date_labels_NoDup.
Qed.

Lemma daily_row_fixed (cols : list string) (n no : Z) (t : task) (c : string) :
  0 <= n <= MAX_SCHEDULE_DAYS -> c ∈ fixed ->
  row_get (daily_row cols (date_labels n) no t) c
  = row_get
      [ (c_No, Num no); (c_Phase, Str (t_Phase t));
        (c_category, get_or cols (t_row t) c_category (Str EmptyString));
        (c_title, Str (t_title t));
        (c_owner, get_or cols (t_row t) c_owner (Str EmptyString));
        (c_status, Str (status_of cols (t_row t)));
        (c_start, Date (t_start t)); (c_end, Date (t_end t)) ] c.
Proof.
  intros Hn Hc. unfold daily_row, row_get. rewrite fill_cells_get_old; [done|].
  pose proof (date_labels_NoDup n Hn) as Hnd.
  apply NoDup_app in Hnd as (_ & Hdis & _). by apply Hdis.
Qed.

Lemma daily_row_cell (cols : list string) (n no : Z) (t : task) (j : Z) :
  0 <= n <= MAX_SCHEDULE_DAYS -> 0 <= j < n ->
  row_get (daily_row cols (date_labels n) no t) (strftime_md (PROJECT_START + j))
  = Str (daily_mark (status_of cols (t_row t)) (t_startDay t) (t_endDay t) j).
Proof.
  intros Hn Hj. unfold daily_row, row_get.
  pose proof (date_labels_NoDup n Hn) as Hnd.
  apply NoDup_app in Hnd as (_ & _ & Hnd).
  rewrite (fill_cells_get_new _ 0 _ _ (Z.to_nat j) (strftime_md (PROJECT_START + j)));
    [|done|].
  - simpl. do 2 f_equal. lia.
  - rewrite date_labels_lookup by lia. do 3 f_equal. lia.
Qed.

(** The table the daily builder returns on a non-empty frame. *)
Lemma build_schedule_table_eq (df : DataFrame) :
  df_empty df = false -> daily_ready df = true ->
  build_schedule_table df
  = Ok (mkFrame
          (fixed ++ date_labels (num_days (prepare <$> rows df)))
          (number_from
             (daily_row (columns df) (date_labels (num_days (prepare <$> rows df))))
             1 (sort_values task_le (prepare <$> rows df)))).
Proof.
  intros Hne Hready. unfold daily_ready in Hready.
  apply andb_prop in Hready as [Hready He].
  apply andb_prop in Hready as [Hready Hs].
  apply andb_prop in Hready as [Hp Ht].
  unfold build_schedule_table. rewrite Hne.
  rewrite !need_ok by done. cbn [mbind result_bind].
  pose proof (num_days_range (prepare <$> rows df)) as Hn.
  apply finish_uniform.
  - intros Hnil. apply (f_equal length) in Hnil.
    rewrite number_from_length in Hnil. unfold task_le in Hnil.
    rewrite sort_values_length, length_fmap in Hnil.
    apply df_nonempty in Hne. by destruct (rows df).
  - by apply date_labels_NoDup.
  - apply number_from_Forall. intros i t. by apply daily_row_keys.
Qed.

Lemma build_schedule_table_ready (df out : DataFrame) :
  df_empty df = false -> build_schedule_table df = Ok out ->
  daily_ready df = true.
Proof.
  intros Hne. unfold build_schedule_table, daily_ready, need. rewrite Hne.
  destruct (mem c_Phase (columns df)); [|done].
  destruct (mem c_title (columns df)); [|done].
  destruct (mem c_start (columns df)); [|done].
  destruct (mem c_end (columns df)); done.
Qed.

End Daily.

(** ** Rows, order and numbering of the daily grid *)

Ltac in_fixed :=
  cbv [fixed]; repeat first [apply list_elem_of_here | apply list_elem_of_further].

Lemma string_compare_refl (s : string) : String.compare s s = Eq.
Proof.
  pose proof (String.compare_antisym s s) as Ha.
  by destruct (String.compare s s).
Qed.

Lemma task_le_spec (a b : task) : task_le a b = true <-> task_before a b.
Proof.
  unfold task_le, task_cmp, task_before, str_lt.
  destruct (Z.compare_spec (t_start a) (t_start b)) as [Hs|Hs|Hs]; simpl.
  - destruct (String.compare (t_Phase a) (t_Phase b)) eqn:Ep; simpl.
    + apply String.compare_eq_iff in Ep.
      destruct (String.compare (t_title a) (t_title b)) eqn:Et; simpl.
      * apply String.compare_eq_iff in Et. intuition.
      * intuition.
      * split; [done|]. intros [?|(_ & [?|(_ & [?|Heq])])]; try lia; try done.
        rewrite Heq, string_compare_refl in Et. done.
    + intuition.
    + split; [done|]. intros [?|(_ & [?|(Heq & _)])]; try lia; try done.
      rewrite Heq, string_compare_refl in Ep. done.
  - intuition.
  - split; [done|]. intros [?|(? & _)]; lia.
Qed.

Lemma order_like_task : order_like task_cmp.
Proof.
  unfold task_cmp.
  apply (order_like_lex (fun a b => t_start a ?= t_start b)).
  - apply (order_like_on t_start), order_like_Z.
  - apply (order_like_lex (fun a b => String.compare (t_Phase a) (t_Phase b))).
    + apply (order_like_on t_Phase), order_like_string.
    + apply (order_like_on t_title), order_like_string.
Qed.

Lemma sorted_tasks (l : list task) :
  StronglySorted task_before (sort_values task_le l).
Proof.
  pose proof (sort_values_sorted task_cmp order_like_task l) as Hs.
  change (fun a b => not_gt (task_cmp a b)) with task_le in Hs.
  induction Hs as [|t l' _ IH Hall]; constructor; [done|].
  eapply Forall_impl; [exact Hall|]. intros b Hb. by apply task_le_spec.
Qed.

Section DailyClaims.
Context `{Pandas}.




End DailyClaims.

(** ** The weekly builder *)

Section Weekly.
Context `{Pandas}.

Lemma mapM_ok {A B : Type} (f : A -> result B) (g : A -> B) (l : list A) :
  Forall (fun x => f x = Ok (g x)) l -> mapM f l = Ok (g <$> l).
Proof.
  induction 1 as [|x l Hx _ IH]; simpl; [done|].
  rewrite Hx. cbn [mbind result_bind]. rewrite IH. done.
Qed.

Lemma to_date_strict_ok (c : cell) :
  parses c = true -> to_date_strict c = Ok (to_date c).
Proof.
  unfold parses, to_date_strict, to_date. by destruct (parse_datetime c).
Qed.

Lemma prepare_weekly_ok (r : pydict) :
  parses (row_get r c_start) = true -> parses (row_get r c_end) = true ->
  prepare_weekly r = Ok (weekly_task r).
Proof.
  intros Hs He. unfold prepare_weekly, weekly_task.
  rewrite !to_date_strict_ok by done. done.
Qed.

Lemma weekly_row_keys (cols : list string) (n no : Z) (t : wtask) :
  n <= LAST_DISTINCT_WEEK ->
  keys (weekly_row cols (week_labels n) no t) = fixed ++ week_labels n.
Proof.
  intros Hn. unfold weekly_row. rewrite fill_cells_keys; [done|].
  by apply week_labels_NoDup.
Qed.

Lemma weekly_row_fixed (cols : list string) (n no : Z) (t : wtask) (c : string) :
  n <= LAST_DISTINCT_WEEK -> c ∈ fixed ->
  row_get (weekly_row cols (week_labels n) no t) c
  = row_get
      [ (c_No, Num no); (c_Phase, row_get (w_row t) c_Phase);
        (c_category, row_get (w_row t) c_category);
        (c_title, row_get (w_row t) c_title);
        (c_owner, row_get (w_row t) c_owner);
        (c_status, Str (status_of cols (w_row t)));
        (c_start, Date (w_start t)); (c_end, Date (w_end t)) ] c.
Proof.
  intros Hn Hc. unfold weekly_row, row_get. rewrite fill_cells_get_old; [done|].
  pose proof (week_labels_NoDup n Hn) as Hnd.
  apply NoDup_app in Hnd as (_ & Hdis & _). by apply Hdis.
Qed.

Lemma weekly_row_cell (cols : list string) (n no : Z) (t : wtask) (w : Z) :
  n <= LAST_DISTINCT_WEEK -> 0 <= w < n ->
  row_get (weekly_row cols (week_labels n) no t) (week_label w)
  = Str (weekly_mark (status_of cols (w_row t)) (w_startWeek t) (w_endWeek t) w).
Proof.
  intros Hn Hw. unfold weekly_row, row_get.
  pose proof (week_labels_NoDup n Hn) as Hnd.
  apply NoDup_app in Hnd as (_ & _ & Hnd).
  rewrite (fill_cells_get_new _ 0 _ _ (Z.to_nat w) (week_label w)); [|done|].
  - simpl. do 2 f_equal. lia.
  - rewrite week_labels_lookup by lia. do 2 f_equal. lia.
Qed.

Lemma series_max_perm (l l' : list Z) : l ≡ₚ l' -> series_max l = series_max l'.
Proof.
  intros Hp. destruct l as [|x l].
  { apply Permutation_nil_l in Hp. by subst. }
  assert (Hl' : l' <> []).
  { intros ->. by apply Permutation_nil_r in Hp. }
  pose proof (series_max_in (x :: l) ltac:(done)) as H1.
  pose proof (series_max_in l' Hl') as H2.
  remember (series_max (x :: l)) as m1. remember (series_max l') as m2.
  rewrite Hp in H1. rewrite <- Hp in H2.
  apply (series_max_ge l') in H1. apply (series_max_ge (x :: l)) in H2. lia.
Qed.

(** The table the weekly builder returns on a non-empty frame whose tasks
    all end within the weeks of distinct labels. *)
Lemma build_schedule_table_weekly_eq (df : DataFrame) :
  df_empty df = false -> weekly_ready df = true ->
  series_max (w_endWeek <$> (weekly_task <$> rows df)) <= LAST_DISTINCT_WEEK ->
  build_schedule_table_weekly df
  = Ok (mkFrame
          (fixed ++ week_labels (series_max (w_endWeek <$> (weekly_task <$> rows df))))
          (number_from
             (weekly_row (columns df)
                (week_labels (series_max (w_endWeek <$> (weekly_task <$> rows df)))))
             1 (sort_values wtask_le (weekly_task <$> rows df)))).
Proof.
  intros Hne Hready HM. unfold weekly_ready in Hready.
  repeat (apply andb_prop in Hready as [Hready ?]).
  unfold build_schedule_table_weekly. rewrite Hne.
  rewrite need_ok by done. cbn [mbind result_bind].
  rewrite (mapM_ok _ (fun r => to_date (row_get r c_start))).
  2:{ apply Forall_forall. intros r Hr. apply to_date_strict_ok.
      assert (Hb : forallb (fun r => parses (row_get r c_start)
                                     && parses (row_get r c_end)) (rows df) = true)
        by done.
      rewrite forallb_forall in Hb. apply list_elem_of_In in Hr.
      by apply Hb, andb_prop in Hr as [? ?]. }
  cbn [mbind result_bind]. rewrite need_ok by done. cbn [mbind result_bind].
  rewrite (mapM_ok _ weekly_task).
  2:{ apply Forall_forall. intros r Hr.
      assert (Hb : forallb (fun r => parses (row_get r c_start)
                                     && parses (row_get r c_end)) (rows df) = true)
        by done.
      rewrite forallb_forall in Hb. apply list_elem_of_In in Hr.
      apply Hb, andb_prop in Hr as [? ?]. by apply prepare_weekly_ok. }
  cbn [mbind result_bind]. unfold need_sortable.
  rewrite need_ok by done. cbn [mbind result_bind].
  assert (Hsort : sortable ((fun r => row_get r c_Phase) <$> rows df) = true) by done.
  rewrite Hsort. rewrite !need_ok by done. cbn [mbind result_bind].
  assert (Hmax : series_max (w_endWeek <$> sort_values wtask_le (weekly_task <$> rows df))
                 = series_max (w_endWeek <$> (weekly_task <$> rows df))).
  { apply series_max_perm. apply fmap_Permutation.
    apply (sort_values_perm
             (fun a b => lex (w_startWeek a ?= w_startWeek b)
                           (cell_cmp (row_get (w_row a) c_Phase)
                              (row_get (w_row b) c_Phase)))). }
  rewrite Hmax. apply finish_uniform.
  - intros Hnil. apply (f_equal length) in Hnil.
    rewrite number_from_length in Hnil. unfold wtask_le in Hnil.
    rewrite sort_values_length, length_fmap in Hnil.
    apply df_nonempty in Hne. by destruct (rows df).
  - by apply week_labels_NoDup.
  - apply number_from_Forall. intros i t. by apply weekly_row_keys.
Qed.

End Weekly.

Section WeeklyClaims.
Context `{Pandas}.


End WeeklyClaims.


(** From week 53 on the labels repeat, so a later week writes into the
    column of an earlier one: with a task in week 1 and a task in week 53
    the grid has 52 week columns, the first task's row is unmarked and the
    second task is marked in the first week column. *)
Lemma weekly_labels_collide_after_a_year :
  exists (out : DataFrame) (r1 r2 : pydict),
    build_schedule_table_weekly Samples.year_apart = Ok out
    /\ series_max (w_endWeek <$> (weekly_task <$> rows Samples.year_apart)) = 53
    /\ length (columns out) = (length fixed + 52)%nat
    /\ rows out = [r1; r2]
    /\ marked r1 (week_labels 53) = []
    /\ row_get r2 (week_label 0) = Str mark_span.
Proof.
  eexists _, _, _. split; [vm_compute; reflexivity|].
  repeat split; vm_compute; reflexivity.
Qed.

(** C4. The weekly builder does not coerce an end date that precedes the
    start date: for the task of [inverted] (2025-12-05 to 2025-12-01) its
    row keeps the end date 2025-12-01 and no week column is marked. *)
Theorem weekly_keeps_end_before_start :
  exists (out : DataFrame) (r : pydict),
    build_schedule_table_weekly Samples.inverted = Ok out
    /\ rows out = [r]
    /\ columns out = fixed ++ week_labels 1
    /\ row_get r c_start = Date (date 2025 12 5)
    /\ row_get r c_end = Date (date 2025 12 1)
    /\ marked r (week_labels 1) = [].
Proof.
  eexists _, _. split; [vm_compute; reflexivity|].
  repeat split; vm_compute; reflexivity.
Qed.

(** The daily builder on the same task: the end date becomes 2025-12-05
    and exactly the column of that day is marked. *)
Lemma daily_coerces_end_to_start :
  exists (out : DataFrame) (r : pydict),
    build_schedule_table Samples.inverted = Ok out
    /\ rows out = [r]
    /\ row_get r c_start = Date (date 2025 12 5)
    /\ row_get r c_end = Date (date 2025 12 5)
    /\ marked r (date_labels 127) = [strftime_md (date 2025 12 5)].
Proof.
  eexists _, _. split; [vm_compute; reflexivity|].
  repeat split; vm_compute; reflexivity.
Qed.

(** C10. The weekly builder does not clip to [MAX_SCHEDULE_DAYS]: for a
    task that ends 200 days after the epoch the weekly grid has 29 week
    columns, more than the 26 weeks that hold [MAX_SCHEDULE_DAYS] days, and
    the task is marked in week 29. *)
Theorem weekly_window_exceeds_daily_cap :
  exists (df out : DataFrame) (r r' : pydict) (e : Z),
    rows df = [r]
    /\ row_get r c_end = Date e
    /\ MAX_SCHEDULE_DAYS < e - PROJECT_START
    /\ build_schedule_table_weekly df = Ok out
    /\ columns out = fixed ++ week_labels 29
    /\ NoDup (week_labels 29)
    /\ (MAX_SCHEDULE_DAYS + 6) / 7 < Z.of_nat (length (week_labels 29))
    /\ rows out = [r']
    /\ row_get r' (week_label 28) = Str mark_span.
Proof.
  exists Samples.long_task. eexists _, _, _, _.
  split; [reflexivity|]. split; [reflexivity|]. split; [vm_compute; reflexivity|].
  split; [vm_compute; reflexivity|]. split; [reflexivity|].
  split.
  { pose proof (week_labels_NoDup 29 ltac:(unfold LAST_DISTINCT_WEEK; lia)) as Hnd.
    by apply NoDup_app in Hnd as (_ & _ & Hnd). }
  split; [vm_compute; reflexivity|]. split; vm_compute; reflexivity.
Qed.

(** ** [load_tasks] *)

Lemma row_get_set (k k' : string) (v : cell) (d : pydict) :
  row_get (dict_set k v d) k' = if String.eqb k k' then v else row_get d k'.
Proof.
  unfold row_get. rewrite dict_get_set. by destruct (String.eqb k k').
Qed.

(** Reads through a chain of assignments to literal column labels. *)
Ltac eqb_eval :=
  repeat match goal with
    | |- context [String.eqb ?a ?b] =>
        let v := eval vm_compute in (String.eqb a b) in
        change (String.eqb a b) with v
    end;
  cbv iota.

Ltac row_simpl := repeat (rewrite row_get_set; eqb_eval).

(** Two literal column labels differ. *)
Ltac col_neq :=
  let E := fresh "E" in intros E; vm_compute in E; discriminate E.

Lemma mem_add_col (c c' : string) (cols : list string) :
  mem c cols = true -> mem c (add_col c' cols) = true.
Proof.
  intros Hc. unfold add_col. destruct (mem c' cols); [done|].
  apply mem_spec. apply elem_of_app. left. by apply mem_spec.
Qed.

Lemma mem_add_col_self (c : string) (cols : list string) :
  mem c (add_col c cols) = true.
Proof.
  unfold add_col. destruct (mem c cols) eqn:Hc; [done|].
  apply mem_spec. apply elem_of_app. right. by left.
Qed.

Lemma mem_add_col_inv (c c' : string) (cols : list string) :
  mem c (add_col c' cols) = true -> c = c' \/ mem c cols = true.
Proof.
  unfold add_col. destruct (mem c' cols); [by right|].
  intros Hc. apply mem_spec, elem_of_app in Hc as [Hc|Hc].
  - right. by apply mem_spec.
  - left. by apply list_elem_of_singleton in Hc.
Qed.

Section Load.
Context `{Pandas}.

Lemma clip_range (n : Z) : 1 <= clip n <= MAX_SCHEDULE_DAYS.
Proof. unfold clip, MAX_SCHEDULE_DAYS. lia. Qed.

Lemma clipped_day (x : cell) :
  exists n : Z,
    clip_cell (fillna (to_numeric x) (Num 1)) = Num n
    /\ 1 <= n <= MAX_SCHEDULE_DAYS.
Proof.
  unfold to_numeric. destruct (parse_number x) as [n|]; simpl.
  - exists (clip n). split; [done|]. apply clip_range.
  - exists (clip 1). split; [done|]. apply clip_range.
Qed.

Lemma fix_status_cols (c : string) (df : DataFrame) :
  mem c (columns df) = true -> mem c (columns (fix_status df)) = true.
Proof. intros Hc. unfold fix_status, assign. simpl. by do 2 apply mem_add_col. Qed.

Lemma day_columns_cols (c : string) (df : DataFrame) :
  mem c (columns df) = true -> mem c (columns (day_columns df)) = true.
Proof.
  intros Hc. unfold day_columns, clip_column. cbn [foldl].
  repeat match goal with
    | |- context [if ?b then assign _ _ _ else assign _ _ _] => destruct b
    end; unfold assign; cbn [columns]; by repeat apply mem_add_col.
Qed.

Lemma date_columns_cols (c : string) (df : DataFrame) :
  mem c (columns df) = true -> mem c (columns (date_columns df)) = true.
Proof.
  intros Hc. unfold date_columns.
  repeat match goal with
    | |- context [if ?b then assign _ _ _ else assign _ _ _] => destruct b
    end; unfold assign; cbn [columns]; by repeat apply mem_add_col.
Qed.

Lemma date_columns_dates (df : DataFrame) :
  mem c_start (columns (date_columns df)) = true
  /\ mem c_end (columns (date_columns df)) = true.
Proof.
  unfold date_columns.
  repeat match goal with
    | |- context [if ?b then assign _ _ _ else assign _ _ _] => destruct b
    end; unfold assign; cbn [columns];
    (split; [apply mem_add_col, mem_add_col_self | apply mem_add_col_self]).
Qed.

(** Lines 326-327 row by row. *)
Lemma fix_status_rows (df : DataFrame) :
  exists g : pydict -> pydict,
    rows (fix_status df) = g <$> rows df
    /\ (forall r c, c <> c_status -> row_get (g r) c = row_get r c)
    /\ (forall r, row_get (g r) c_status <> NA
                  /\ row_get (g r) c_status <> Str EmptyString).
Proof.
  eexists. split; [|split].
  - unfold fix_status, assign. cbn [rows]. rewrite <- list_fmap_compose. reflexivity.
  - intros r c Hc. unfold compose. rewrite !row_get_set.
    by destruct (String.eqb_spec c_status c).
  - intros r. unfold compose. rewrite row_get_set_eq.
    rewrite row_get_set_eq.
    destruct (row_get r c_status) as [|n|[|a s]|d]; simpl; split; done.
Qed.

Lemma tracks_refl (df : DataFrame) (P : pydict -> pydict -> Prop) :
  (forall r, P r r) -> tracks df df P.
Proof. intros HP. exists id. split; [by rewrite list_fmap_id | done]. Qed.

Lemma tracks_assign (df0 df : DataFrame) (P Q : pydict -> pydict -> Prop)
    (c : string) (f : pydict -> cell) :
  tracks df0 df P ->
  (forall r r', P r r' -> Q r (dict_set c (f r') r')) ->
  tracks df0 (assign c f df) Q.
Proof.
  intros (g & Hg & HP) Hstep.
  exists (fun r => dict_set c (f (g r)) (g r)). split.
  - unfold assign. cbn [rows]. rewrite Hg, <- list_fmap_compose. reflexivity.
  - intros r. by apply Hstep.
Qed.

Lemma day_cells_only_set (r r' : pydict) (c : string) (v : cell) :
  c = c_Day \/ c = c_startDay \/ c = c_endDay ->
  day_cells_only r r' -> day_cells_only r (dict_set c v r').
Proof.
  intros Hc Hr c' H1 H2 H3. rewrite row_get_set_ne; [by apply Hr|].
  destruct Hc as [-> | [-> | ->]]; congruence.
Qed.

Lemma day_ok_set_other (r : pydict) (c c' : string) (v : cell) :
  c' <> c -> day_ok r c -> day_ok (dict_set c' v r) c.
Proof. intros Hne. unfold day_ok. by rewrite row_get_set_ne. Qed.

(** Lines 348-350 for one column, on top of what is known of the rows. *)
Lemma clip_column_tracks (df0 df : DataFrame) (col : string)
    (P : pydict -> pydict -> Prop) :
  tracks df0 df P ->
  (forall r r' v, P r r' -> P r (dict_set col v r')) ->
  tracks df0 (clip_column df col) (fun r r' => P r r' /\ day_ok r' col).
Proof.
  intros HT Hstable. unfold clip_column.
  eapply tracks_assign.
  - eapply (tracks_assign _ _ _
              (fun r r' => P r r' /\ exists x, row_get r' col
                                              = fillna (to_numeric x) (Num 1))).
    + exact HT.
    + intros r r' HP. split; [by apply Hstable|].
      exists (row_get r' col). by rewrite row_get_set_eq.
  - intros r r' [HP [x Hx]]. cbv beta. split; [by apply Hstable|].
    unfold day_ok. rewrite row_get_set_eq, Hx. apply clipped_day.
Qed.

(** Lines 330-350 row by row. *)
Lemma day_columns_rows (df : DataFrame) :
  exists g : pydict -> pydict,
    rows (day_columns df) = g <$> rows df
    /\ (forall r c, c <> c_Day -> c <> c_startDay -> c <> c_endDay ->
          row_get (g r) c = row_get r c)
    /\ (forall r, day_ok (g r) c_Day /\ day_ok (g r) c_startDay
                  /\ day_ok (g r) c_endDay).
Proof.
  assert (HT : tracks df (day_columns df)
                 (fun r r' => ((day_cells_only r r' /\ day_ok r' c_Day)
                               /\ day_ok r' c_startDay) /\ day_ok r' c_endDay)).
  { unfold day_columns. cbv zeta. cbn [foldl].
    apply clip_column_tracks; [apply clip_column_tracks; [apply clip_column_tracks|]|].
    - do 3 (eapply tracks_assign;
            [|intros r r' Hr; apply day_cells_only_set; [auto|exact Hr]]).
      assert (H1 : tracks df
                (assign c_Day
                   (fun r => if mem c_Day (columns df)
                             then to_numeric (row_get r c_Day) else NA) df)
                day_cells_only).
      { eapply tracks_assign; [apply (tracks_refl df (fun r r' => r' = r)); done|].
        intros r r' ->. apply day_cells_only_set; [auto|]. by intros c. }
      set (df1 := assign c_Day _ df) in *.
      assert (H2 : tracks df
                (if mem c_startDay (columns df1)
                 then assign c_startDay (fun r => to_numeric (row_get r c_startDay)) df1
                 else assign c_startDay (fun r => row_get r c_Day) df1)
                day_cells_only).
      { destruct (mem c_startDay (columns df1));
          (eapply tracks_assign;
           [exact H1|intros r r' Hr; apply day_cells_only_set; [auto|exact Hr]]). }
      set (df2 := if mem c_startDay (columns df1) then _ else _) in *.
      destruct (mem c_endDay (columns df2));
        (eapply tracks_assign;
         [exact H2|intros r r' Hr; apply day_cells_only_set; [auto|exact Hr]]).
    - intros r r' v Hr. apply day_cells_only_set; [auto|exact Hr].
    - intros r r' v [Hr Hd]. split.
      + apply day_cells_only_set; [auto|exact Hr].
      + by apply day_ok_set_other.
    - intros r r' v [[Hr Hd] Hs]. split; [split|].
      + apply day_cells_only_set; [auto|exact Hr].
      + by apply day_ok_set_other.
      + by apply day_ok_set_other. }
  destruct HT as (g & Hg & HP). exists g. split; [exact Hg|]. split.
  - intros r c H1 H2 H3. destruct (HP r) as [[[Hr _] _] _]. by apply Hr.
  - intros r. destruct (HP r) as [[[_ ?] ?] ?]. done.
Qed.

(** Lines 353-361 row by row. *)
Lemma date_columns_rows (df : DataFrame) :
  exists g : pydict -> pydict,
    rows (date_columns df) = g <$> rows df
    /\ (forall r c, c <> c_start -> c <> c_end -> row_get (g r) c = row_get r c)
    /\ (mem c_start (columns df) = false ->
        forall r, row_get (g r) c_start = day_to_date (row_get r c_startDay)).
Proof.
  unfold date_columns.
  destruct (mem c_start (columns df)) eqn:Hs;
  repeat match goal with
    | |- context [if ?b then assign _ _ _ else assign _ _ _] => destruct b
    end;
    (eexists; split; [|split];
     [ unfold assign; cbn [rows]; rewrite <- !list_fmap_compose; reflexivity
     | intros r c H1 H2; unfold compose; rewrite !row_get_set;
       destruct (String.eqb_spec c_start c); [congruence|];
       destruct (String.eqb_spec c_end c); [congruence|]; reflexivity
     | intros Habs r; try discriminate Habs; unfold compose; row_simpl;
       reflexivity ]).
Qed.

(** The status and day stages add no column but their own. *)
Lemma day_stage_adds_only (c : string) (df : DataFrame) :
  c <> c_status -> c <> c_Day -> c <> c_startDay -> c <> c_endDay ->
  mem c (columns (day_columns (fix_status df))) = true ->
  mem c (columns df) = true.
Proof.
  intros H1 H2 H3 H4.
  unfold day_columns, clip_column, fix_status. cbn [foldl].
  repeat match goal with
    | |- context [if ?b then assign _ _ _ else assign _ _ _] => destruct b
    end; unfold assign; cbn [columns]; intros Hc;
    repeat (apply mem_add_col_inv in Hc as [Hc|Hc]; [congruence|]); exact Hc.
Qed.

(** The frame [load_tasks] returns when the three indexed columns exist. *)
Lemma load_tasks_eq (data : list pydict) :
  has_required data = true ->
  load_tasks data
  = Ok (assign c_title (fun r => astype_str (row_get r c_title))
          (assign c_Phase (fun r => astype_str (row_get r c_Phase))
             (date_columns (day_columns (fix_status (sheet_frame data)))))).
Proof.
  intros Hreq. unfold has_required in Hreq.
  apply andb_prop in Hreq as [Hreq Ht]. apply andb_prop in Hreq as [Hs Hp].
  unfold load_tasks. cbv zeta.
  generalize dependent (sheet_frame data). intros df0 Hs Hp Ht.
  assert (Hcols : forall c, mem c (columns df0) = true ->
            mem c (columns (date_columns (day_columns (fix_status df0)))) = true).
  { intros c Hc. by apply date_columns_cols, day_columns_cols, fix_status_cols. }
  generalize dependent (date_columns (day_columns (fix_status df0))).
  intros df3 Hcols.
  rewrite (need_ok c_status df0 Hs). cbn [mbind result_bind].
  rewrite (need_ok c_Phase df3 (Hcols _ Hp)). cbn [mbind result_bind].
  rewrite need_ok; [reflexivity|].
  unfold assign. cbn [columns]. by apply mem_add_col, Hcols.
Qed.

(** What [load_tasks] returns when the three indexed columns exist. *)
Lemma load_tasks_rows (data : list pydict) :
  has_required data = true ->
  exists (df : DataFrame) (g : pydict -> pydict),
    load_tasks data = Ok df
    /\ rows df = g <$> rows (sheet_frame data)
    /\ daily_ready df = true
    /\ (forall r, day_ok (g r) c_Day /\ day_ok (g r) c_startDay
                  /\ day_ok (g r) c_endDay)
    /\ (forall r, row_get (g r) c_status <> NA
                  /\ row_get (g r) c_status <> Str EmptyString)
    /\ (mem c_start (columns (sheet_frame data)) = false ->
        forall r, row_get (g r) c_start = day_to_date (row_get (g r) c_startDay)).
Proof.
  intros Hreq. rewrite (load_tasks_eq data Hreq).
  unfold has_required in Hreq.
  apply andb_prop in Hreq as [Hreq Ht]. apply andb_prop in Hreq as [Hs Hp].
  generalize dependent (sheet_frame data). intros df0 Hs Hp Ht.
  destruct (fix_status_rows df0) as (g1 & Hg1 & Hg1o & Hg1s).
  destruct (day_columns_rows (fix_status df0)) as (g2 & Hg2 & Hg2o & Hg2d).
  destruct (date_columns_rows (day_columns (fix_status df0)))
    as (g3 & Hg3 & Hg3o & Hg3s).
  destruct (date_columns_dates (day_columns (fix_status df0))) as [Hcs Hce].
  assert (Hno : mem c_start (columns df0) = false ->
            mem c_start (columns (day_columns (fix_status df0))) = false).
  { intros Hno.
    destruct (mem c_start (columns (day_columns (fix_status df0)))) eqn:Hm;
      [|reflexivity].
    apply day_stage_adds_only in Hm; [|col_neq..].
    rewrite Hm in Hno. discriminate Hno. }
  remember (date_columns (day_columns (fix_status df0))) as df3 eqn:Edf3.
  clear Edf3.
  eexists _, (fun r =>
    let r3 := g3 (g2 (g1 r)) in
    let r4 := dict_set c_Phase (astype_str (row_get r3 c_Phase)) r3 in
    dict_set c_title (astype_str (row_get r4 c_title)) r4).
  split; [reflexivity|]. split; [|split; [|split; [|split]]].
  - unfold assign. cbn [rows]. rewrite Hg3, Hg2, Hg1.
    rewrite <- !list_fmap_compose. reflexivity.
  - unfold daily_ready, assign. cbn [columns].
    rewrite mem_add_col by apply mem_add_col_self.
    rewrite mem_add_col_self.
    rewrite (mem_add_col c_start c_title) by (by apply mem_add_col).
    rewrite (mem_add_col c_end c_title) by (by apply mem_add_col). done.
  - intros r. cbv zeta. destruct (Hg2d (g1 r)) as (Hd1 & Hd2 & Hd3).
    unfold day_ok in *. row_simpl. rewrite !Hg3o by col_neq. done.
  - intros r. cbv zeta. row_simpl. rewrite Hg3o, Hg2o by col_neq. apply Hg1s.
  - intros Hno' r. cbv zeta. row_simpl. rewrite Hg3s by auto.
    by rewrite Hg3o by col_neq.
Qed.

End Load.

Section LoadClaims.
Context `{Pandas}.

(** The stages of [load_tasks] add no column but the status, day and date
    columns. *)
Lemma stages_add_only (c : string) (df : DataFrame) :
  c <> c_status -> c <> c_Day -> c <> c_startDay -> c <> c_endDay ->
  c <> c_start -> c <> c_end ->
  mem c (columns (date_columns (day_columns (fix_status df)))) = true ->
  mem c (columns df) = true.
Proof.
  intros H1 H2 H3 H4 H5 H6 Hc. apply day_stage_adds_only; try done.
  remember (day_columns (fix_status df)) as df2 eqn:Edf2. clear Edf2.
  revert Hc. unfold date_columns.
  repeat match goal with
    | |- context [if ?b then assign _ _ _ else assign _ _ _] => destruct b
    end; unfold assign; cbn [columns]; intros Hc;
    repeat (apply mem_add_col_inv in Hc as [Hc|Hc]; [congruence|]); exact Hc.
Qed.

Lemma bind_inv {A B : Type} (f : A -> result B) (m : result A) (b : B) :
  m ≫= f = Ok b -> exists a, m = Ok a /\ f a = Ok b.
Proof. destruct m as [a|e]; [|done]. intros Hf. by exists a. Qed.

Lemma need_assign_inv (c c' : string) (f : pydict -> cell) (df : DataFrame) (u : unit) :
  c <> c' -> need c (assign c' f df) = Ok u -> mem c (columns df) = true.
Proof.
  intros Hne Hn. apply need_inv in Hn.
  destruct (mem_add_col_inv c c' (columns df) Hn) as [Hc|Hc]; [done|exact Hc].
Qed.

Lemma load_tasks_required (data : list pydict) (df : DataFrame) :
  load_tasks data = Ok df -> has_required data = true.
Proof.
  unfold load_tasks, has_required. cbv zeta.
  generalize (sheet_frame data). intros df0.
  pose proof (fun c => stages_add_only c df0) as Hadd.
  remember (date_columns (day_columns (fix_status df0))) as df3 eqn:Edf3.
  clear Edf3. intros Hload.
  apply bind_inv in Hload as (u1 & Hs & Hload). apply need_inv in Hs.
  apply bind_inv in Hload as (u2 & Hp & Hload). apply need_inv in Hp.
  apply bind_inv in Hload as (u3 & Ht & _).
  apply need_assign_inv in Ht; [|col_neq].
  rewrite Hs, (Hadd c_Phase), (Hadd c_title);
    (reflexivity || assumption || col_neq).
Qed.

Lemma sheet_frame_rows (data : list pydict) : rows (sheet_frame data) = data.
Proof. by destruct data. Qed.


(** C7. Every Day, start-day and end-day number that [load_tasks] returns
    lies in [1, MAX_SCHEDULE_DAYS], and so do the offsets the daily builder
    recomputes from the dates, which are the clipped day counts from the
    epoch; an offset of 500 is clipped to 180. *)
Theorem day_offsets_clipped :
  (forall (data : list pydict) (df : DataFrame),
     load_tasks data = Ok df ->
     forall r, r ∈ rows df ->
       day_ok r c_Day /\ day_ok r c_startDay /\ day_ok r c_endDay)
  /\ (forall r : pydict,
        t_startDay (prepare r) = clip (t_start (prepare r) - PROJECT_START + 1)
        /\ t_endDay (prepare r) = clip (t_end (prepare r) - PROJECT_START + 1)
        /\ 1 <= t_startDay (prepare r) <= MAX_SCHEDULE_DAYS
        /\ 1 <= t_endDay (prepare r) <= MAX_SCHEDULE_DAYS)
  /\ (forall n : Z, 1 <= clip n <= MAX_SCHEDULE_DAYS)
  /\ clip 500 = 180
  /\ MAX_SCHEDULE_DAYS = 180.
Proof.
  split; [|split; [|split; [|split]]].
  - intros data df Hload r Hr.
    pose proof (load_tasks_required data df Hload) as Hreq.
    destruct (load_tasks_rows data Hreq) as (df' & g & Hload' & Hrows & _ & Hd & _).
    rewrite Hload in Hload'. injection Hload' as <-.
    rewrite Hrows in Hr. apply list_elem_of_fmap in Hr as (r0 & -> & _).
    apply Hd.
  - intros r. destruct (prepare_spec r) as (_ & Hs & He & Hb1 & Hb2).
    repeat split; (done || lia).
  - apply clip_range.
  - reflexivity.
  - reflexivity.
Qed.


(** C9. On a frame without rows the daily and the weekly builders return
    the empty table, and the list view (given the three columns it sorts
    by, which every frame of [load_tasks] has) is a frame without rows; so
    it is for the frame loaded from a sheet without records. *)
Theorem empty_input_gives_empty_tables :
  (forall df : DataFrame, df_empty df = true ->
     build_schedule_table df = Ok empty_frame
     /\ build_schedule_table_weekly df = Ok empty_frame)
  /\ (forall df : DataFrame, rows df = [] -> df_empty df = true)
  /\ (forall df : DataFrame, rows df = [] ->
        mem c_start (columns df) = true -> mem c_Phase (columns df) = true ->
        mem c_title (columns df) = true ->
        exists v : DataFrame, list_view df = Ok v /\ rows v = [])
  /\ (exists df v : DataFrame,
        load_tasks [] = Ok df /\ rows df = []
        /\ build_schedule_table df = Ok empty_frame
        /\ build_schedule_table_weekly df = Ok empty_frame
        /\ list_view df = Ok v /\ rows v = []).
Proof.
  split; [|split; [|split]].
  - intros df He. unfold build_schedule_table, build_schedule_table_weekly.
    by rewrite He.
  - intros df Hr. unfold df_empty. rewrite Hr. by destruct (columns df).
  - intros [cols rws] Hr Hs Hp Ht. simpl in *. subst rws.
    unfold list_view. cbn [columns rows]. rewrite Hs.
    unfold astype_str_if_present, assign. cbn [foldl columns rows fmap list_fmap].
    rewrite (mem_add_col c_Phase c_start cols Hp). cbn [columns].
    rewrite (mem_add_col c_title c_Phase) by (by apply mem_add_col).
    cbn [columns rows fmap list_fmap].
    rewrite !need_ok; cbn [columns];
      try (by repeat apply mem_add_col).
    cbn [mbind result_bind]. eexists. split; [reflexivity|]. reflexivity.
  - eexists _, _. split; [vm_compute; reflexivity|].
    repeat split; vm_compute; reflexivity.
Qed.

End LoadClaims.



(** The start offset 500 of [sheet_day_500] leaves [load_tasks] as 180. *)
Lemma load_tasks_clips_500 :
  exists r : pydict,
    load_tasks Samples.sheet_day_500 = Ok Samples.loaded_day_500
    /\ rows Samples.loaded_day_500 = [r]
    /\ row_get r c_startDay = Num 180.
Proof.
  eexists. split; [vm_compute; reflexivity|].
  split; vm_compute; reflexivity.
Qed.

(** ** The statements at the sample inputs *)






Lemma day_offsets_clipped_witness :
  exists r : pydict,
    load_tasks Samples.sheet_day_500 = Ok Samples.loaded_day_500
    /\ r ∈ rows Samples.loaded_day_500
    /\ row_get r c_startDay = Num 180
    /\ day_ok r c_startDay.
Proof.
  assert (Hl : load_tasks Samples.sheet_day_500 = Ok Samples.loaded_day_500)
    by (vm_compute; reflexivity).
  eexists. split; [exact Hl|].
  assert (Hr : hd [] (rows Samples.loaded_day_500) ∈ rows Samples.loaded_day_500).
  { vm_compute. apply list_elem_of_here. }
  split; [exact Hr|]. split; [vm_compute; reflexivity|].
  exact (proj1 (proj2 (proj1 (day_offsets_clipped (H := Concrete.pandas))
                         Samples.sheet_day_500 Samples.loaded_day_500 Hl _ Hr))).
Defined.


Lemma empty_input_gives_empty_tables_witness :
  load_tasks [] = Ok Samples.no_tasks
  /\ rows Samples.no_tasks = []
  /\ build_schedule_table Samples.no_tasks = Ok empty_frame
  /\ build_schedule_table_weekly Samples.no_tasks = Ok empty_frame
  /\ exists v : DataFrame, list_view Samples.no_tasks = Ok v /\ rows v = [].
Proof.
  pose proof (empty_input_gives_empty_tables (H := Concrete.pandas))
    as (Hbuild & Hemp & Hview & _).
  assert (Hrows : rows Samples.no_tasks = []) by reflexivity.
  split; [vm_compute; reflexivity|]. split; [exact Hrows|].
  split; [exact (proj1 (Hbuild _ (Hemp _ Hrows)))|].
  split; [exact (proj2 (Hbuild _ (Hemp _ Hrows)))|].
  apply (Hview _ Hrows); vm_compute; reflexivity.
Defined.

(** * Further properties *)

(** ** [load_tasks], record by record *)

Section LoadRows.
Context `{Pandas}.

Lemma fix_status_rows_eq (df : DataFrame) :
  rows (fix_status df)
  = (fun r => dict_set c_status
                (fillna (replace_blank (row_get r c_status)) (Str st_todo)) 
                (dict_set c_status (replace_blank (row_get r c_status)) r))
    <$> rows df.
Proof.
  unfold fix_status, assign. cbn [rows]. rewrite <- list_fmap_compose.
  apply list_fmap_ext. intros i r _. unfold compose. by rewrite row_get_set_eq.
Qed.

(** X1. [load_tasks] keeps the records in their order and rewrites only the
    status, day, date, phase and title cells: the status of a record is
    the first status when the sheet cell is blank or missing and the sheet
    cell otherwise, phase and title are the sheet cells as text, and every
    other column of the sheet comes out as it is in the sheet. *)
Theorem load_tasks_record_by_record (data : list pydict) (df : DataFrame) :
  load_tasks data = Ok df ->
  length (rows df) = length data
  /\ (forall c, c ∈ columns (sheet_frame data) -> c ∈ columns df)
  /\ forall (i : nat) (r : pydict), data !! i = Some r ->
       exists r' : pydict,
         rows df !! i = Some r'
         /\ row_get r' c_status
            = match row_get r c_status with
              | NA | Str EmptyString => Str st_todo
              | s => s
              end
         /\ row_get r' c_Phase = Str (py_str (row_get r c_Phase))
         /\ row_get r' c_title = Str (py_str (row_get r c_title))
         /\ forall c, c <> c_status -> c <> c_Day -> c <> c_startDay ->
              c <> c_endDay -> c <> c_start -> c <> c_end ->
              c <> c_Phase -> c <> c_title ->
              row_get r' c = row_get r c.
Proof.
  intros Hload. pose proof (load_tasks_required data df Hload) as Hreq.
  rewrite (load_tasks_eq data Hreq) in Hload. injection Hload as <-.
  clear Hreq. pose proof (sheet_frame_rows data) as Hdata.
  revert Hdata. generalize (sheet_frame data). intros df0 <-.
  destruct (day_columns_rows (fix_status df0)) as (g2 & Hg2 & Hg2o & _).
  destruct (date_columns_rows (day_columns (fix_status df0)))
    as (g3 & Hg3 & Hg3o & _).
  assert (Hcols : forall c, mem c (columns df0) = true ->
            mem c (columns (date_columns (day_columns (fix_status df0)))) = true).
  { intros c Hc. by apply date_columns_cols, day_columns_cols, fix_status_cols. }
  remember (date_columns (day_columns (fix_status df0))) as df3 eqn:Edf3.
  clear Edf3. rewrite fix_status_rows_eq in Hg2.
  unfold assign. cbn [rows columns]. rewrite Hg3, Hg2.
  rewrite <- !list_fmap_compose. split; [by rewrite length_fmap|]. split.
  { intros c Hc. apply mem_spec. do 2 apply mem_add_col.
    by apply Hcols, mem_spec. }
  intros i r Hi. eexists. split.
  { rewrite list_lookup_fmap, Hi. reflexivity. }
  unfold compose. split; [|split; [|split]].
  - row_simpl. rewrite Hg3o, Hg2o by col_neq. rewrite row_get_set_eq.
    by destruct (row_get r c_status) as [|n|[|a s]|d].
  - row_simpl. rewrite Hg3o, Hg2o by col_neq. row_simpl. reflexivity.
  - row_simpl. rewrite Hg3o, Hg2o by col_neq. row_simpl. reflexivity.
  - intros c H1 H2 H3 H4 H5 H6 H7 H8.
    rewrite !row_get_set_ne by congruence.
    rewrite Hg3o, Hg2o by congruence. by rewrite !row_get_set_ne by congruence.
Qed.

End LoadRows.

Lemma load_tasks_record_by_record_witness :
  load_tasks Samples.sheet_minimal = Ok Samples.loaded_minimal
  /\ length (rows Samples.loaded_minimal) = 2%nat.
Proof.
  assert (Hl : load_tasks Samples.sheet_minimal = Ok Samples.loaded_minimal)
    by (vm_compute; reflexivity).
  split; [exact Hl|].
  exact (proj1 (load_tasks_record_by_record (H := Concrete.pandas)
                  Samples.sheet_minimal Samples.loaded_minimal Hl)).
Defined.

(** ** The list view and the delete button *)

Lemma add_col_mem (c : string) (cols : list string) :
  mem c cols = true -> add_col c cols = cols.
Proof. unfold add_col. by intros ->. Qed.

Lemma reindex_get (cols : list string) (r : pydict) (c : string) :
  c ∈ cols -> row_get (reindex cols r) c = row_get r c.
Proof.
  unfold reindex, row_get at 1. induction cols as [|c0 cols IH]; intros Hc.
  - by apply elem_of_nil in Hc.
  - rewrite fmap_cons. cbn [dict_get].
    destruct (String.eqb_spec c0 c) as [->|Hne]; [done|].
    apply IH. apply elem_of_cons in Hc as [->|Hc]; [done|exact Hc].
Qed.

Lemma mapM_lookup {A B : Type} (f : A -> result B) (l : list A) (l' : list B) :
  mapM f l = Ok l' ->
  forall (j : nat) (y : B), l' !! j = Some y ->
    exists x, l !! j = Some x /\ f x = Ok y.
Proof.
  revert l'. induction l as [|x l IH]; intros l' Hm; simpl in Hm.
  - injection Hm as <-. intros j y Hj. by rewrite lookup_nil in Hj.
  - apply bind_inv in Hm as (y0 & Hx & Hm).
    apply bind_inv in Hm as (ys & Hl & Hm). injection Hm as <-.
    intros [|j] y Hj; simpl in Hj.
    + injection Hj as <-. by exists x.
    + by apply (IH ys).
Qed.

Lemma mapM_total {A B : Type} (f : A -> result B) (l : list A) :
  (forall (j : nat) (x : A), l !! j = Some x -> exists y, f x = Ok y) ->
  exists l', mapM f l = Ok l'.
Proof.
  induction l as [|x l IH]; intros Hall; simpl; [by eexists|].
  destruct (Hall 0%nat x eq_refl) as [y Hy].
  destruct IH as [ys Hys]. { intros j x' Hj. by apply (Hall (S j)). }
  exists (y :: ys). by rewrite Hy, Hys.
Qed.

(** A key of a dict built by successive assignments was assigned, or was
    there at the start. *)
Lemma dict_get_assigned (es : list (string * cell)) (d0 : pydict)
    (k : string) (v : cell) :
  dict_get k (foldl (fun d e => dict_set e.1 e.2 d) d0 es) = Some v ->
  dict_get k d0 = Some v \/ exists j : nat, es !! j = Some (k, v).
Proof.
  revert d0. induction es as [|[k0 v0] es IH]; intros d0 Hk; simpl in Hk.
  - by left.
  - apply IH in Hk as [Hk|[j Hj]].
    + rewrite dict_get_set in Hk. simpl in Hk.
      destruct (String.eqb_spec k0 k) as [->|Hne].
      * injection Hk as <-. right. by exists 0%nat.
      * by left.
    + right. by exists (S j).
Qed.

Section ListView.
Context `{Pandas}.

Lemma assign_columns_mem (c : string) (f : pydict -> cell) (df : DataFrame) :
  mem c (columns df) = true -> columns (assign c f df) = columns df.
Proof. intros Hc. unfold assign. cbn [columns]. by apply add_col_mem. Qed.

(** The frame the list view is made of when the view has the three
    columns it is sorted by. *)
Lemma list_view_eq (view_df : DataFrame) :
  mem c_start (columns view_df) = true ->
  mem c_Phase (columns view_df) = true ->
  mem c_title (columns view_df) = true ->
  list_view view_df
  = Ok (mkFrame
          (c_No :: c_orig_index
           :: filter (fun c => negb (String.eqb c c_No)) (columns view_df))
          (number_from
             (list_row (filter (fun c => negb (String.eqb c c_No)) (columns view_df)))
             0 (sort_values view_le (view_row <$> rows view_df)))).
Proof.
  intros Hs Hp Ht. unfold list_view. rewrite Hs.
  unfold astype_str_if_present. cbn [foldl].
  rewrite (assign_columns_mem c_start) by done. rewrite Hp.
  rewrite (assign_columns_mem c_Phase)
    by (by rewrite (assign_columns_mem c_start)).
  rewrite (assign_columns_mem c_start) by done. rewrite Ht.
  assert (Hcols : columns
            (assign c_title (fun r => astype_str (row_get r c_title))
               (assign c_Phase (fun r => astype_str (row_get r c_Phase))
                  (assign c_start (fun r => to_datetime_coerce (row_get r c_start))
                     view_df))) = columns view_df).
  { rewrite !assign_columns_mem; try done.
    - by rewrite (assign_columns_mem c_start).
    - by rewrite (assign_columns_mem c_Phase), (assign_columns_mem c_start)
        by (by rewrite ?(assign_columns_mem c_start)). }
  assert (Hrows : rows
            (assign c_title (fun r => astype_str (row_get r c_title))
               (assign c_Phase (fun r => astype_str (row_get r c_Phase))
                  (assign c_start (fun r => to_datetime_coerce (row_get r c_start))
                     view_df))) = view_row <$> rows view_df).
  { unfold assign. cbn [rows]. rewrite <- !list_fmap_compose. reflexivity. }
  remember (assign c_title _ _) as df eqn:Edf. clear Edf.
  unfold need. rewrite Hcols, Hs, Hp, Ht. cbn [mbind result_bind].
  by rewrite Hrows.
Qed.

(** The rows of the list view, position by position. *)
Lemma list_view_positions (view_df : DataFrame) :
  mem c_start (columns view_df) = true ->
  mem c_Phase (columns view_df) = true ->
  mem c_title (columns view_df) = true ->
  exists (out : DataFrame) (sorted : list pydict),
    list_view view_df = Ok out
    /\ sorted ≡ₚ view_row <$> rows view_df
    /\ columns out
       = c_No :: c_orig_index
         :: filter (fun c => negb (String.eqb c c_No)) (columns view_df)
    /\ length (rows out) = length (rows view_df)
    /\ forall (i : nat) (r : pydict), sorted !! i = Some r ->
         exists r' : pydict,
           rows out !! i = Some r'
           /\ row_get r' c_No = Num (Z.of_nat i + 1)
           /\ row_get r' c_orig_index = Num (Z.of_nat i)
           /\ forall c, c ∈ columns view_df -> c <> c_No -> c <> c_orig_index ->
                row_get r' c = row_get r c.
Proof.
  intros Hs Hp Ht.
  eexists _, (sort_values view_le (view_row <$> rows view_df)).
  split; [by apply list_view_eq|]. split.
  { apply (sort_values_perm
             (fun a b => lex (cell_cmp (row_get a c_start) (row_get b c_start))
                (lex (cell_cmp (row_get a c_Phase) (row_get b c_Phase))
                   (cell_cmp (row_get a c_title) (row_get b c_title))))). }
  cbn [columns rows]. split; [done|]. split.
  { rewrite number_from_length. unfold view_le.
    by rewrite sort_values_length, length_fmap. }
  intros i r Hi. eexists. split.
  { rewrite number_from_lookup, Hi. reflexivity. }
  unfold list_row. split; [|split].
  - unfold row_get. cbn [dict_get]. rewrite String.eqb_refl. simpl.
    f_equal; lia.
  - unfold row_get. cbn [dict_get].
    replace (String.eqb c_No c_orig_index) with false by (by vm_compute).
    rewrite String.eqb_refl. simpl. f_equal; lia.
  - intros c Hc Hno Hnoi. unfold row_get at 1. cbn [dict_get].
    destruct (String.eqb_spec c_No c) as [<-|_]; [done|].
    destruct (String.eqb_spec c_orig_index c) as [<-|_]; [done|].
    apply reindex_get. apply list_elem_of_filter. split; [|done].
    destruct (String.eqb_spec c c_No); [done|]. exact I.
Qed.

(** X2. The list view has one row per row of the view, in a rearrangement of
    them; the row at position [i] is numbered [i + 1] and its
    [_orig_index] is [i], its position in the sorted view; its other
    cells are those of the view row. The view must not have a column
    named [index] or [_orig_index] already: the first would be the one
    renamed, the second would be there twice. *)
Theorem list_view_numbers_by_position (view_df : DataFrame) :
  mem c_start (columns view_df) = true ->
  mem c_Phase (columns view_df) = true ->
  mem c_title (columns view_df) = true ->
  c_orig_index ∉ columns view_df -> c_index ∉ columns view_df ->
  exists (out : DataFrame) (sorted : list pydict),
    list_view view_df = Ok out
    /\ sorted ≡ₚ view_row <$> rows view_df
    /\ columns out
       = c_No :: c_orig_index
         :: filter (fun c => negb (String.eqb c c_No)) (columns view_df)
    /\ length (rows out) = length (rows view_df)
    /\ forall (i : nat) (r : pydict), sorted !! i = Some r ->
         exists r' : pydict,
           rows out !! i = Some r'
           /\ row_get r' c_No = Num (Z.of_nat i + 1)
           /\ row_get r' c_orig_index = Num (Z.of_nat i)
           /\ forall c, c ∈ columns view_df -> c <> c_No ->
                row_get r' c = row_get r c.
Proof.
  intros Hs Hp Ht Horig _.
  destruct (list_view_positions view_df Hs Hp Ht)
    as (out & sorted & Hview & Hperm & Hcols & Hn & Hrow).
  exists out, sorted. split; [done|]. split; [done|]. split; [done|].
  split; [done|]. intros i r Hi.
  destruct (Hrow i r Hi) as (r' & Hr' & Hno & Hoi & Hother).
  exists r'. split; [done|]. split; [done|]. split; [done|].
  intros c Hc Hne. apply Hother; [done..|]. by intros ->.
Qed.

(** X3. Every entry of the select box of the delete button stands for a row
    of the list view, and choosing it removes from the stored frame the
    row at that row's position in the sorted view, whichever task is
    stored there; the other stored rows keep their order. *)
Theorem delete_removes_view_position (base_df view_df : DataFrame) :
  mem c_start (columns view_df) = true ->
  mem c_Phase (columns view_df) = true ->
  mem c_title (columns view_df) = true ->
  mem c_owner (columns view_df) = true ->
  c_orig_index ∉ columns view_df -> c_index ∉ columns view_df ->
  (length (rows view_df) <= length (rows base_df))%nat ->
  exists (list_df : DataFrame) (sorted : list pydict) (opts : pydict),
    list_view view_df = Ok list_df
    /\ sorted ≡ₚ view_row <$> rows view_df
    /\ delete_options list_df = Ok opts
    /\ forall (chosen : string) (v : cell), dict_get chosen opts = Some v ->
         exists (i : nat) (r : pydict),
           sorted !! i = Some r
           /\ chosen = delete_label_of (Z.of_nat i + 1) (row_get r c_title)
                         (row_get r c_owner)
           /\ v = Num (Z.of_nat i)
           /\ delete_task base_df list_df chosen
              = Ok (mkFrame (columns base_df) (delete i (rows base_df))).
Proof.
  intros Hs Hp Ht Ho Horig Hidx Hlen.
  destruct (list_view_positions view_df Hs Hp Ht)
    as (ld & sorted & Hview & Hperm & Hcols & Hn & Hrow).
  assert (Hsl : length sorted = length (rows view_df)).
  { by rewrite Hperm, length_fmap. }
  assert (Hmem : forall c, c ∈ columns view_df -> mem c (columns ld) = true).
  { intros c Hc. rewrite Hcols. apply mem_spec.
    destruct (String.eqb_spec c c_No) as [->|Hne]; [by left|].
    do 2 right. apply list_elem_of_filter. split; [|done].
    destruct (String.eqb_spec c c_No); [done|]. exact I. }
  assert (Hentry : forall (j : nat) (x : pydict), rows ld !! j = Some x ->
    exists r, sorted !! j = Some r
      /\ delete_entry (columns ld) x
         = Ok (delete_label_of (Z.of_nat j + 1) (row_get r c_title)
                 (row_get r c_owner), Num (Z.of_nat j))).
  { intros j x Hj.
    destruct (lookup_lt_is_Some_2 sorted j) as [r Hr].
    { apply lookup_lt_Some in Hj. lia. }
    destruct (Hrow j r Hr) as (x' & Hx' & Hno & Hoi & Hother).
    rewrite Hj in Hx'. injection Hx' as <-.
    exists r. split; [done|]. unfold delete_entry, row_at.
    assert (Hm1 : mem c_No (columns ld) = true) by (rewrite Hcols; by vm_compute).
    assert (Hm2 : mem c_orig_index (columns ld) = true)
      by (rewrite Hcols; by vm_compute).
    rewrite Hm1, Hm2, !Hmem by (by apply mem_spec).
    cbn [mbind result_bind]. rewrite Hno, Hoi. cbn [int_of_cell mbind result_bind].
    rewrite !Hother; first [col_neq | by apply mem_spec | done]. }
  destruct (mapM_total (delete_entry (columns ld)) (rows ld)) as [entries Hentries].
  { intros j x Hj. destruct (Hentry j x Hj) as (r & _ & He). by eexists. }
  eexists ld, sorted, _. split; [done|]. split; [done|]. split.
  { unfold delete_options. rewrite Hentries. reflexivity. }
  intros chosen v Hget.
  destruct (dict_get_assigned _ _ _ _ Hget) as [Hnil|[j Hj]]; [done|].
  destruct (mapM_lookup _ _ _ Hentries j _ Hj) as (x & Hx & Hfx).
  destruct (Hentry j x Hx) as (r & Hr & He).
  rewrite Hfx in He. injection He as -> ->.
  exists j, r. split; [done|]. split; [done|]. split; [done|].
  unfold delete_task. unfold delete_options. rewrite Hentries.
  cbn [mbind result_bind]. rewrite Hget. unfold drop_index.
  apply lookup_lt_Some in Hr.
  destruct (Z.leb_spec 0 (Z.of_nat j)); [|lia].
  destruct (Z.ltb_spec (Z.of_nat j) (Z.of_nat (length (rows base_df)))); [|lia].
  simpl. by rewrite Nat2Z.id.
Qed.

End ListView.

Lemma list_view_numbers_by_position_witness :
  exists out : DataFrame,
    list_view Samples.three_tasks = Ok out /\ length (rows out) = 3%nat.
Proof.
  assert (H1 : c_orig_index ∉ columns Samples.three_tasks).
  { intros Hin. apply mem_spec in Hin. vm_compute in Hin. discriminate Hin. }
  assert (H2 : c_index ∉ columns Samples.three_tasks).
  { intros Hin. apply mem_spec in Hin. vm_compute in Hin. discriminate Hin. }
  destruct (list_view_numbers_by_position (H := Concrete.pandas)
              Samples.three_tasks eq_refl eq_refl eq_refl H1 H2)
    as (out & sorted & Hv & _ & _ & Hn & _).
  exists out. split; [exact Hv | exact Hn].
Defined.

Lemma delete_removes_view_position_witness :
  exists (list_df : DataFrame) (opts : pydict),
    list_view Samples.three_tasks = Ok list_df
    /\ delete_options list_df = Ok opts.
Proof.
  assert (H1 : c_orig_index ∉ columns Samples.three_tasks).
  { intros Hin. apply mem_spec in Hin. vm_compute in Hin. discriminate Hin. }
  assert (H2 : c_index ∉ columns Samples.three_tasks).
  { intros Hin. apply mem_spec in Hin. vm_compute in Hin. discriminate Hin. }
  assert (H3 : (length (rows Samples.three_tasks)
                <= length (rows Samples.three_tasks))%nat) by (simpl; lia).
  destruct (delete_removes_view_position (H := Concrete.pandas)
              Samples.three_tasks Samples.three_tasks
              eq_refl eq_refl eq_refl eq_refl H1 H2 H3)
    as (ld & sorted & opts & Hv & _ & Ho & _).
  exists ld, opts. split; [exact Hv | exact Ho].
Defined.

(** ** The add-task form *)

Lemma add_cols_keep (ks cols : list string) (c : string) :
  mem c cols = true ->
  mem c (foldl (fun cs k => add_col k cs) cols ks) = true.
Proof.
  revert cols. induction ks as [|k ks IH]; intros cols Hc; simpl; [done|].
  by apply IH, mem_add_col.
Qed.

Lemma add_cols_new (ks cols : list string) (c : string) :
  c ∈ ks -> mem c (foldl (fun cs k => add_col k cs) cols ks) = true.
Proof.
  revert cols. induction ks as [|k ks IH]; intros cols Hc; simpl.
  - by apply elem_of_nil in Hc.
  - apply elem_of_cons in Hc as [->|Hc]; [|by apply IH].
    apply add_cols_keep, mem_add_col_self.
Qed.

Lemma clip_max_min (n : Z) :
  Z.max 1 (Z.min MAX_SCHEDULE_DAYS n) = clip n.
Proof. unfold clip, MAX_SCHEDULE_DAYS. lia. Qed.

Section AddTask.
Context `{Pandas}.

(** X4. A submitted form with a title appends one record and leaves the
    stored ones as they are. The record has every column the daily
    builder needs; its end date is the later of the two dates entered,
    its day numbers are the offsets of its dates from the project start
    plus one, stored as they come, outside 1..180 too, and the daily
    builder reads the record back with these dates and the offsets
    clipped. *)
Theorem add_task_appends_normalised_row (df : DataFrame) (f : task_form) :
  f_title f <> EmptyString ->
  rows (add_task df f) = rows df ++ [new_row f]
  /\ (forall c, c ∈ columns df -> c ∈ columns (add_task df f))
  /\ daily_ready (add_task df f) = true
  /\ row_get (new_row f) c_start = Date (f_start f)
  /\ row_get (new_row f) c_end = Date (Z.max (f_start f) (f_end f))
  /\ row_get (new_row f) c_startDay = Num (f_start f - PROJECT_START + 1)
  /\ row_get (new_row f) c_endDay
     = Num (Z.max (f_start f) (f_end f) - PROJECT_START + 1)
  /\ row_get (new_row f) c_Day = row_get (new_row f) c_startDay
  /\ t_start (prepare (new_row f)) = f_start f
  /\ t_end (prepare (new_row f)) = Z.max (f_start f) (f_end f)
  /\ t_startDay (prepare (new_row f)) = clip (f_start f - PROJECT_START + 1)
  /\ t_endDay (prepare (new_row f))
     = clip (Z.max (f_start f) (f_end f) - PROJECT_START + 1)
  /\ t_Phase (prepare (new_row f)) = f_phase f
  /\ t_title (prepare (new_row f)) = f_title f.
Proof.
  intros Htitle.
  assert (Hadd : add_task df f = concat_row df (new_row f)).
  { unfold add_task. by destruct (f_title f). }
  assert (Hend : (if f_end f <? f_start f then f_start f else f_end f)
                 = Z.max (f_start f) (f_end f)).
  { destruct (Z.ltb_spec (f_end f) (f_start f)); lia. }
  rewrite Hadd. unfold concat_row. cbn [rows columns].
  split; [done|]. split.
  { intros c Hc. by apply mem_spec, add_cols_keep, mem_spec. }
  assert (Hnew : forall c, c ∈ keys (new_row f) ->
            mem c (foldl (fun cs k => add_col k cs) (columns df) (keys (new_row f)))
            = true).
  { intros c Hc. by apply add_cols_new. }
  split.
  { unfold daily_ready. cbn [columns].
    rewrite !Hnew; [done| | | |]; apply mem_spec; by vm_compute. }
  assert (Hs : row_get (new_row f) c_start = Date (f_start f)) by reflexivity.
  assert (He : row_get (new_row f) c_end = Date (Z.max (f_start f) (f_end f))).
  { rewrite <- Hend. reflexivity. }
  assert (Hp : row_get (new_row f) c_Phase = Str (f_phase f)) by reflexivity.
  assert (Ht : row_get (new_row f) c_title = Str (f_title f)) by reflexivity.
  split; [done|]. split; [done|]. split; [reflexivity|].
  split; [rewrite <- Hend; reflexivity|]. split; [reflexivity|].
  unfold prepare. cbn [t_start t_end t_startDay t_endDay t_Phase t_title].
  rewrite Hs, He, Hp, Ht. unfold to_date. rewrite !parse_datetime_Date.
  cbn [default from_option id]. rewrite !py_str_Str.
  destruct (Z.ltb_spec (Z.max (f_start f) (f_end f)) (f_start f)); [lia|].
  done.
Qed.

End AddTask.

Lemma add_task_appends_normalised_row_witness :
  rows (add_task Samples.three_tasks MoreSamples.late_form)
  = rows Samples.three_tasks ++ [new_row MoreSamples.late_form].
Proof.
  assert (Ht : f_title MoreSamples.late_form <> EmptyString)
    by (vm_compute; discriminate).
  exact (proj1 (add_task_appends_normalised_row (H := Concrete.pandas)
                  Samples.three_tasks MoreSamples.late_form Ht)).
Defined.

(** ** Daily and weekly markers of one task *)

Lemma daily_mark_nonempty (st : string) (sd ed j : Z) :
  daily_mark st sd ed j <> EmptyString <-> sd - 1 <= j <= ed - 1.
Proof.
  unfold daily_mark.
  destruct (Z.leb_spec (sd - 1) j), (Z.leb_spec j (ed - 1)); simpl;
    try (split; [done|lia]).
  split; [lia|]. intros _.
  destruct (String.eqb st st_done); [by vm_compute|].
  destruct (sd =? ed); by vm_compute.
Qed.

Lemma weekly_mark_nonempty (st : string) (sw ew k : Z) :
  weekly_mark st sw ew k <> EmptyString <-> sw - 1 <= k <= ew - 1.
Proof.
  unfold weekly_mark.
  destruct (Z.leb_spec (sw - 1) k), (Z.leb_spec k (ew - 1)); simpl;
    try (split; [done|lia]).
  split; [lia|]. intros _.
  destruct (String.eqb st st_done); by vm_compute.
Qed.

Section MarksAgree.
Context `{Pandas}.


End MarksAgree.


(** ** Ties of the sort *)

Section Stable.
Context {A : Type} (cmp : A -> A -> comparison).
Hypothesis O : order_like cmp.
Let le (a b : A) : bool := not_gt (cmp a b).

Lemma insert_by_filter (k x : A) (l : list A) :
  filter (fun y => cmp k y = Eq) (insert_by le x l)
  = filter (fun y => cmp k y = Eq) (x :: l).
Proof.
  induction l as [|y l IH]; [done|]. cbn [insert_by].
  destruct (le x y) eqn:Hxy; [done|].
  rewrite filter_cons, IH, !filter_cons.
  destruct (decide (cmp k y = Eq)) as [Hy|Hy];
    destruct (decide (cmp k x = Eq)) as [Hx|Hx]; try done.
  exfalso. unfold le in Hxy.
  rewrite <- (ol_eq_l cmp O k x y Hx), Hy in Hxy. done.
Qed.

Lemma sort_values_filter (k : A) (l : list A) :
  filter (fun y => cmp k y = Eq) (sort_values le l)
  = filter (fun y => cmp k y = Eq) l.
Proof.
  induction l as [|x l IH]; [done|]. cbn [sort_values foldr].
  fold (sort_values le l). rewrite insert_by_filter, !filter_cons, IH. done.
Qed.
End Stable.

Section Ties.
Context `{Pandas}.


End Ties.


(** ** The save button of the edit tab *)

Section SaveEdits.
Context `{Pandas}.

Lemma at_set_in (i : nat) (c : string) (v : cell) (df : DataFrame) :
  (i < length (rows df))%nat ->
  at_set (Z.of_nat i) c v df
  = Done (mkFrame (add_col c (columns df)) (alter (dict_set c v) i (rows df))).
Proof.
  intros Hi. unfold at_set.
  destruct (Z.leb_spec 0 (Z.of_nat i)); [|lia].
  destruct (Z.ltb_spec (Z.of_nat i) (Z.of_nat (length (rows df)))); [|lia].
  simpl. by rewrite Nat2Z.id.
Qed.

Lemma overwrite_fold (ecols : list string) (row : pydict) (i : nat)
    (fs : list string) (df : DataFrame) :
  (i < length (rows df))%nat ->
  foldl (overwrite ecols row (Z.of_nat i)) (Done df) fs
  = Done (mkFrame (columns df)
            (alter (fun r =>
                      foldl (fun r c => if mem c (columns df) && mem c ecols
                                        then dict_set c (row_get row c) r else r)
                        r fs)
               i (rows df))).
Proof.
  revert df. induction fs as [|c fs IH]; intros [cols rs] Hi; cbn [foldl].
  - cbn [columns rows]. f_equal. f_equal. symmetry. by apply list_alter_id.
  - cbn [columns rows] in *. unfold overwrite at 2. cbn [and_then columns].
    destruct (mem c cols && mem c ecols) eqn:Hc.
    + rewrite at_set_in by done. cbn [columns rows].
      apply andb_prop in Hc as [Hc1 Hc2]. rewrite (add_col_mem c cols Hc1).
      rewrite IH by (cbn [rows]; by rewrite length_alter).
      cbn [columns rows]. rewrite list_alter_alter_eq. reflexivity.
    + rewrite IH by done. reflexivity.
Qed.

(** One row of the editor, written over the stored record at its
    [_orig_index]. *)
Lemma save_row_eq (ecols : list string) (row : pydict) (i : nat) (df : DataFrame) :
  mem c_orig_index ecols = true -> mem c_start ecols = true ->
  mem c_end ecols = true ->
  row_get row c_orig_index = Num (Z.of_nat i) ->
  (i < length (rows df))%nat ->
  save_row ecols (Done df) row
  = Done (mkFrame (add_col c_endDay (add_col c_startDay (columns df)))
            (alter (saved_record (add_col c_endDay (add_col c_startDay (columns df)))
                      ecols row)
               i (rows df))).
Proof.
  intros Ho Hs He Hidx Hi. unfold save_row, row_at.
  rewrite Ho, Hs, He, Hidx. cbn [and_then lift mbind result_bind int_of_cell].
  rewrite at_set_in by done. cbn [and_then].
  rewrite at_set_in by (cbn [rows]; by rewrite length_alter).
  cbn [and_then columns rows].
  rewrite overwrite_fold by (cbn [rows]; by rewrite !length_alter).
  cbn [columns rows]. rewrite !list_alter_alter_eq. reflexivity.
Qed.

Lemma saved_fields_get (bcols ecols fs : list string) (row r : pydict) (c : string) :
  row_get (foldl (fun r c => if mem c bcols && mem c ecols
                             then dict_set c (row_get row c) r else r) r fs) c
  = if mem c fs && (mem c bcols && mem c ecols) then row_get row c else row_get r c.
Proof.
  revert r. induction fs as [|f fs IH]; intros r; cbn [foldl]; [done|].
  rewrite IH. change (mem c (f :: fs)) with (String.eqb c f || mem c fs).
  destruct (mem c fs && (mem c bcols && mem c ecols)) eqn:Hc.
  - apply andb_prop in Hc as [-> ->]. by rewrite orb_true_r.
  - destruct (String.eqb_spec c f) as [->|Hne]; cbn [orb].
    + destruct (mem f bcols && mem f ecols) eqn:Hf; cbn [andb].
      * by rewrite row_get_set_eq.
      * done.
    + rewrite Hc. destruct (mem f bcols && mem f ecols); [|done].
      by rewrite row_get_set_ne by congruence.
Qed.

Lemma add_days_twice (cols : list string) :
  add_col c_endDay
    (add_col c_startDay (add_col c_endDay (add_col c_startDay cols)))
  = add_col c_endDay (add_col c_startDay cols).
Proof.
  rewrite (add_col_mem c_startDay).
  - apply add_col_mem, mem_add_col_self.
  - apply mem_add_col, mem_add_col_self.
Qed.

(** The rows of the editor, written one after the other over the stored
    records from position [p] on. *)
Lemma save_rows_eq (ecols bcols : list string) (es : list pydict) :
  mem c_orig_index ecols = true -> mem c_start ecols = true ->
  mem c_end ecols = true ->
  forall (p : nat) (df : DataFrame),
    add_col c_endDay (add_col c_startDay (columns df)) = bcols ->
    (forall (j : nat) (e : pydict), es !! j = Some e ->
       row_get e c_orig_index = Num (Z.of_nat (p + j))) ->
    (p + length es <= length (rows df))%nat ->
    exists out : DataFrame,
      foldl (save_row ecols) (Done df) es = Done out
      /\ length (rows out) = length (rows df)
      /\ (forall (j : nat) (e : pydict), es !! j = Some e ->
            rows out !! (p + j)%nat
            = saved_record bcols ecols e <$> rows df !! (p + j)%nat)
      /\ forall i : nat, (i < p \/ p + length es <= i)%nat ->
           rows out !! i = rows df !! i.
Proof.
  intros Ho Hs He. induction es as [|e es IH]; intros p df Hcols Hidx Hlen.
  - exists df. cbn [foldl]. split; [done|]. split; [done|]. split; [|done].
    intros j e Hj. by rewrite lookup_nil in Hj.
  - cbn [foldl length] in *.
    rewrite (save_row_eq ecols e p df Ho Hs He); [|
      by rewrite (Hidx 0%nat e eq_refl), Nat.add_0_r | lia].
    rewrite Hcols.
    destruct (IH (S p)
                (mkFrame bcols (alter (saved_record bcols ecols e) p (rows df))))
      as (out & Hout & Hn & Hin & Hother).
    { cbn [columns]. rewrite <- Hcols. apply add_days_twice. }
    { intros j e' Hj. rewrite (Hidx (S j) e' Hj). do 2 f_equal. lia. }
    { cbn [rows]. rewrite length_alter. lia. }
    cbn [rows] in *. rewrite length_alter in Hn.
    exists out. split; [done|]. split; [done|]. split.
    + intros [|j] e' Hj.
      * injection Hj as <-. rewrite Nat.add_0_r.
        rewrite Hother by lia. by rewrite list_lookup_alter_eq.
      * replace (p + S j)%nat with (S p + j)%nat by lia.
        rewrite (Hin j e' Hj). by rewrite list_lookup_alter_ne by lia.
    + intros i Hi. rewrite Hother by lia.
      by rewrite list_lookup_alter_ne by lia.
Qed.

(** X7. Every row of the editor is written over the stored record whose
    position is the row's [_orig_index]; with the numbering of the list
    view this is the position of the row in the sorted view. That record
    gets the day numbers of the edited dates, cut to 1..180, and the
    edited cells of the columns both frames have; its other cells, and
    the records below the last row of the editor, stay as they are. *)
Theorem save_edits_writes_by_position (base_df edited_df : DataFrame) :
  mem c_orig_index (columns edited_df) = true ->
  mem c_start (columns edited_df) = true ->
  mem c_end (columns edited_df) = true ->
  (forall (j : nat) (e : pydict), rows edited_df !! j = Some e ->
     row_get e c_orig_index = Num (Z.of_nat j)) ->
  (length (rows edited_df) <= length (rows base_df))%nat ->
  exists out : DataFrame,
    save_edits base_df edited_df = Done out
    /\ length (rows out) = length (rows base_df)
    /\ (forall (j : nat) (e : pydict), rows edited_df !! j = Some e ->
          exists r r' : pydict,
            rows base_df !! j = Some r /\ rows out !! j = Some r'
            /\ row_get r' c_startDay = Num (edited_day (row_get e c_start))
            /\ row_get r' c_endDay = Num (edited_day (row_get e c_end))
            /\ (forall c, c ∈ edited_fields -> c ∈ columns base_df ->
                  c ∈ columns edited_df -> row_get r' c = row_get e c)
            /\ forall c, c <> c_startDay -> c <> c_endDay ->
                 ~ (c ∈ edited_fields /\ c ∈ columns base_df
                    /\ c ∈ columns edited_df) ->
                 row_get r' c = row_get r c)
    /\ forall i : nat, (length (rows edited_df) <= i)%nat ->
         rows out !! i = rows base_df !! i.
Proof.
  intros Ho Hs He Hidx Hlen. unfold save_edits.
  destruct (save_rows_eq (columns edited_df)
              (add_col c_endDay (add_col c_startDay (columns base_df)))
              (rows edited_df) Ho Hs He 0%nat base_df eq_refl Hidx)
    as (out & Hout & Hn & Hin & Hother); [simpl; lia|].
  exists out. split; [done|]. split; [done|]. split.
  - intros j e Hj.
    destruct (lookup_lt_is_Some_2 (rows base_df) j) as [r Hr].
    { apply lookup_lt_Some in Hj. lia. }
    pose proof (Hin j e Hj) as Hrow. cbn [Nat.add] in Hrow.
    rewrite Hr in Hrow. cbn [fmap option_fmap option_map] in Hrow.
    exists r. eexists. split; [done|]. split; [exact Hrow|].
    unfold saved_record. rewrite !saved_fields_get.
    split; [|split; [|split]].
    + replace (mem c_startDay edited_fields) with false by (by vm_compute).
      cbn [andb]. by row_simpl.
    + replace (mem c_endDay edited_fields) with false by (by vm_compute).
      cbn [andb]. by row_simpl.
    + intros c Hc1 Hc2 Hc3. rewrite saved_fields_get.
      apply mem_spec in Hc1, Hc2, Hc3.
      rewrite Hc1, Hc3.
      by rewrite (mem_add_col c c_endDay _ (mem_add_col c c_startDay _ Hc2)).
    + intros c Hc1 Hc2 Hno. rewrite saved_fields_get.
      destruct (mem c edited_fields
                && (mem c (add_col c_endDay (add_col c_startDay (columns base_df)))
                    && mem c (columns edited_df))) eqn:Hc.
      * exfalso. apply Hno. apply andb_prop in Hc as [Hf Hc].
        apply andb_prop in Hc as [Hb Hed].
        split; [by apply mem_spec|]. split; [|by apply mem_spec].
        apply mem_spec. apply mem_add_col_inv in Hb as [Hb|Hb]; [congruence|].
        apply mem_add_col_inv in Hb as [Hb|Hb]; [congruence|done].
      * by rewrite !row_get_set_ne by congruence.
  - intros i Hi. apply Hother. lia.
Qed.

(** X8. The day numbers the save button stores are those the daily builder
    derives from the same record, when the record has an end date that
    is not before its start. *)
Theorem saved_days_match_daily_builder (r : pydict) (e : Z) :
  to_date (row_get r c_end) = Some e -> t_start (prepare r) <= e ->
  edited_day (row_get r c_start) = t_startDay (prepare r)
  /\ edited_day (row_get r c_end) = t_endDay (prepare r).
Proof.
  unfold edited_day, prepare. cbn [t_start t_startDay t_endDay].
  intros -> Hle. cbn [default from_option id] in *. rewrite !clip_max_min.
  destruct (to_date (row_get r c_start)) as [s|]; cbn [default from_option id] in *.
  - destruct (Z.ltb_spec e s); [lia|]. done.
  - destruct (Z.ltb_spec e PROJECT_START); [lia|].
    split; [|done]. unfold PROJECT_START. f_equal; lia.
Qed.

End SaveEdits.

Lemma save_edits_writes_by_position_witness :
  exists out : DataFrame,
    save_edits Samples.three_tasks MoreSamples.edited_two = Done out
    /\ length (rows out) = 3%nat.
Proof.
  assert (Hidx : forall (j : nat) (e : pydict),
            rows MoreSamples.edited_two !! j = Some e ->
            row_get e c_orig_index = Num (Z.of_nat j)).
  { intros [|[|j]] e Hj; vm_compute in Hj; [| |discriminate Hj];
      injection Hj as <-; vm_compute; reflexivity. }
  assert (Hlen : (length (rows MoreSamples.edited_two)
                  <= length (rows Samples.three_tasks))%nat) by (simpl; lia).
  destruct (save_edits_writes_by_position (H := Concrete.pandas)
              Samples.three_tasks MoreSamples.edited_two
              eq_refl eq_refl eq_refl Hidx Hlen) as (out & Hs & Hn & _).
  exists out. split; [exact Hs | exact Hn].
Defined.

Lemma saved_days_match_daily_builder_witness :
  edited_day (H := Concrete.pandas) (row_get MoreSamples.two_week_row c_end)
  = t_endDay (prepare (H := Concrete.pandas) MoreSamples.two_week_row).
Proof.
  refine (proj2 (saved_days_match_daily_builder (H := Concrete.pandas)
                   MoreSamples.two_week_row (date 2025 12 9) _ _)).
  - vm_compute. reflexivity.
  - vm_compute. congruence.
Defined.

(** ** Fading of the past days *)

Lemma has_slash_label (d : Z) : has_slash (strftime_md d) = true.
Proof.
  unfold strftime_md, pad2. cbv [String.append]. cbn [has_slash].
  change (is_slash (Ascii.ascii_of_N 47)) with true.
  cbn [orb]. by rewrite !orb_true_r.
Qed.

Lemma fade_fixed_no_slash (c : string) :
  mem c fade_fixed_cols = true -> has_slash c = false.
Proof.
  intros Hc. apply mem_spec in Hc. unfold fade_fixed_cols in Hc.
  repeat (apply elem_of_cons in Hc as [->|Hc]; [by vm_compute|]).
  by apply elem_of_nil in Hc.
Qed.

Lemma fixed_no_slash (c : string) : c ∈ fixed -> has_slash c = false.
Proof.
  intros Hc. unfold fixed in Hc.
  repeat (apply elem_of_cons in Hc as [->|Hc]; [by vm_compute|]).
  by apply elem_of_nil in Hc.
Qed.

(** The days of the grid, read back in the year of the project start. *)
Lemma grid_days_read_back :
  forallb (fun j =>
      let d := PROJECT_START + j in
      (1 <=? month_of d) && (month_of d <=? 12)
      && (1 <=? day_of d) && (day_of d <=? _days_in_month 1900 (month_of d))
      && (date (year_of PROJECT_START) (month_of d) (day_of d) =? read_back d))
    (seqZ 0 MAX_SCHEDULE_DAYS) = true.
Proof. vm_compute. reflexivity. Qed.

Section FadeFacts.
Context `{Strptime}.

Lemma fade_column_eq (today : Z) (styles : DataFrame) (col : string) :
  fade_column today styles col
  = match column_style today col with
    | None => styles
    | Some s => assign col (fun _ => Str s) styles
    end.
Proof.
  unfold fade_column, column_style.
  destruct (mem col fade_fixed_cols); [done|].
  destruct (strptime_md col) as [[m d]|]; [|done].
  by destruct (date (year_of PROJECT_START) m d <? today).
Qed.

Lemma fade_fold_columns (today : Z) (cols : list string) (styles : DataFrame) :
  (forall c, c ∈ cols -> mem c (columns styles) = true) ->
  columns (foldl (fade_column today) styles cols) = columns styles.
Proof.
  revert styles. induction cols as [|c cols IH]; intros styles Hin; [done|].
  cbn [foldl]. rewrite fade_column_eq.
  assert (Hc : mem c (columns styles) = true) by (apply Hin; by left).
  destruct (column_style today c) as [s|].
  - rewrite IH.
    + unfold assign. cbn [columns]. by apply add_col_mem.
    + intros c' Hc'. unfold assign. cbn [columns].
      rewrite (add_col_mem c _ Hc). apply Hin. by right.
  - apply IH. intros c' Hc'. apply Hin. by right.
Qed.

Lemma fade_fold_rows (today : Z) (cols : list string) (styles : DataFrame) :
  rows (foldl (fade_column today) styles cols)
  = (fun r => foldl (fun r c => match column_style today c with
                                | None => r
                                | Some s => dict_set c (Str s) r
                                end) r cols) <$> rows styles.
Proof.
  revert styles. induction cols as [|c cols IH]; intros styles; cbn [foldl].
  - by rewrite list_fmap_id.
  - rewrite IH, fade_column_eq. destruct (column_style today c) as [s|]; [|done].
    unfold assign. cbn [rows]. by rewrite <- list_fmap_compose.
Qed.

Lemma fade_cells_get (today : Z) (cols : list string) (r : pydict) (c : string) :
  row_get (foldl (fun r c => match column_style today c with
                             | None => r
                             | Some s => dict_set c (Str s) r
                             end) r cols) c
  = match column_style today c with
    | Some s => if mem c cols then Str s else row_get r c
    | None => row_get r c
    end.
Proof.
  revert r. induction cols as [|c0 cols IH]; intros r; cbn [foldl].
  - by destruct (column_style today c).
  - rewrite IH. change (mem c (c0 :: cols)) with (String.eqb c c0 || mem c cols).
    destruct (String.eqb_spec c c0) as [->|Hne]; cbn [orb].
    + destruct (column_style today c0) as [s|]; [|done].
      rewrite row_get_set_eq. by destruct (mem c0 cols).
    + destruct (column_style today c0) as [s0|].
      * by rewrite row_get_set_ne by congruence.
      * done.
Qed.

Lemma blank_row_get (cols : list string) (c : string) :
  c ∈ cols -> row_get ((fun c => (c, Str EmptyString)) <$> cols) c = Str EmptyString.
Proof.
  unfold row_get. induction cols as [|c0 cols IH]; intros Hc.
  - by apply elem_of_nil in Hc.
  - rewrite fmap_cons. cbn [dict_get].
    destruct (String.eqb_spec c0 c) as [->|Hne]; [done|].
    apply IH. apply elem_of_cons in Hc as [->|Hc]; [done|exact Hc].
Qed.

(** The styles of a frame, cell by cell. *)
Lemma fade_past_days_cells (today : Z) (df : DataFrame) :
  columns (fade_past_days today df) = columns df
  /\ length (rows (fade_past_days today df)) = length (rows df)
  /\ forall r c, r ∈ rows (fade_past_days today df) -> c ∈ columns df ->
       row_get r c = Str (default EmptyString (column_style today c)).
Proof.
  unfold fade_past_days. split; [|split].
  - rewrite fade_fold_columns; [done|]. intros c Hc. by apply mem_spec.
  - rewrite fade_fold_rows. unfold blank_styles. cbn [rows].
    by rewrite !length_fmap.
  - intros r c Hr Hc. rewrite fade_fold_rows in Hr.
    unfold blank_styles in Hr. cbn [rows] in Hr.
    rewrite <- list_fmap_compose in Hr.
    apply list_elem_of_fmap in Hr as (r0 & -> & _). unfold compose.
    rewrite fade_cells_get. apply mem_spec in Hc as Hm. rewrite Hm.
    destruct (column_style today c) as [s|]; [done|].
    by apply blank_row_get.
Qed.

Lemma column_style_fixed (today : Z) (c : string) :
  c ∈ fixed -> column_style today c = None.
Proof.
  intros Hc. unfold column_style.
  destruct (mem c fade_fixed_cols); [done|].
  by rewrite strptime_md_no_slash by (by apply fixed_no_slash).
Qed.

Lemma column_style_day (today j : Z) :
  0 <= j < MAX_SCHEDULE_DAYS ->
  column_style today (strftime_md (PROJECT_START + j))
  = Some (if read_back (PROJECT_START + j) <? today
          then fade_style else EmptyString).
Proof.
  intros Hj. pose proof grid_days_read_back as Hall.
  rewrite forallb_forall in Hall.
  assert (Hin : In j (seqZ 0 MAX_SCHEDULE_DAYS)).
  { apply list_elem_of_In, elem_of_seqZ. lia. }
  specialize (Hall j Hin). cbv zeta in Hall.
  apply andb_prop in Hall as [Hall Hd]. apply andb_prop in Hall as [Hall H4].
  apply andb_prop in Hall as [Hall H3]. apply andb_prop in Hall as [H1 H2].
  apply Z.leb_le in H1, H2, H3, H4. apply Z.eqb_eq in Hd.
  unfold column_style.
  destruct (mem (strftime_md (PROJECT_START + j)) fade_fixed_cols) eqn:Hm.
  { apply fade_fixed_no_slash in Hm. by rewrite has_slash_label in Hm. }
  unfold strftime_md at 1. rewrite strptime_md_label by lia. by rewrite Hd.
Qed.

End FadeFacts.

Section FadeGrid.
Context `{Pandas} `{Strptime}.

(** X9. On a grid of the daily builder the styles have the shape of the
    grid; the fixed columns, the status column among them, are left
    unstyled, and the column of day [j] is greyed when its date, read
    back in the year of the project start, is before today. For the
    days of the grid that lie in the next year this is the date one year
    earlier, so from the project start on those columns are greyed
    whatever today is. *)
Theorem fade_reads_days_in_start_year (df out : DataFrame) (today : Z) :
  df_empty df = false -> build_schedule_table df = Ok out ->
  columns (fade_past_days today out) = columns out
  /\ length (rows (fade_past_days today out)) = length (rows out)
  /\ forall r : pydict, r ∈ rows (fade_past_days today out) ->
       (forall c, c ∈ fixed -> row_get r c = Str EmptyString)
       /\ forall j : Z, 0 <= j < num_days (prepare <$> rows df) ->
            row_get r (strftime_md (PROJECT_START + j))
            = Str (if read_back (PROJECT_START + j) <? today
                   then fade_style else EmptyString)
            /\ (PROJECT_START <= today -> NEXT_YEAR <= PROJECT_START + j ->
                row_get r (strftime_md (PROJECT_START + j)) = Str fade_style).
Proof.
  intros Hne Hb.
  pose proof (build_schedule_table_ready df out Hne Hb) as Hready.
  rewrite (build_schedule_table_eq df Hne Hready) in Hb. injection Hb as <-.
  pose proof (num_days_range (prepare <$> rows df)) as Hn.
  remember (num_days (prepare <$> rows df)) as n eqn:En. clear En.
  remember (number_from _ _ _) as rs eqn:Ers. clear Ers.
  destruct (fade_past_days_cells today (mkFrame (fixed ++ date_labels n) rs))
    as (Hc & Hl & Hcell).
  split; [done|]. split; [done|]. intros r Hr. cbn [columns] in Hcell. split.
  - intros c Hc'. rewrite (Hcell r c Hr) by (apply elem_of_app; by left).
    by rewrite column_style_fixed.
  - intros j Hj.
    assert (Hget : row_get r (strftime_md (PROJECT_START + j))
                   = Str (if read_back (PROJECT_START + j) <? today
                          then fade_style else EmptyString)).
    { rewrite (Hcell r _ Hr).
      - by rewrite column_style_day by lia.
      - apply elem_of_app. right. unfold date_labels.
        apply list_elem_of_fmap. exists j. split; [done|].
        apply elem_of_seqZ. lia. }
    split; [done|]. intros Ht Hy. rewrite Hget. unfold read_back.
    destruct (Z.ltb_spec (PROJECT_START + j) NEXT_YEAR); [lia|].
    destruct (Z.ltb_spec (PROJECT_START + j - 365) today); [done|].
    unfold MAX_SCHEDULE_DAYS in Hn. lia.
Qed.

End FadeGrid.

Lemma fade_reads_days_in_start_year_witness :
  columns (fade_past_days (H := ConcreteStrptime.strptime) (date 2025 12 1)
             Samples.three_tasks_grid)
  = columns Samples.three_tasks_grid.
Proof.
  assert (Hb : build_schedule_table Samples.three_tasks
               = Ok Samples.three_tasks_grid) by (vm_compute; reflexivity).
  exact (proj1 (fade_reads_days_in_start_year (H := Concrete.pandas)
                  (H0 := ConcreteStrptime.strptime)
                  Samples.three_tasks Samples.three_tasks_grid
                  (date 2025 12 1) eq_refl Hb)).
Defined.

(** ** Where the weekly builder raises and the daily builder does not *)

Lemma mapM_raise {A B : Type} (f : A -> result B) (l : list A) (e : exn) :
  mapM f l = Raise e -> exists x, x ∈ l /\ f x = Raise e.
Proof.
  induction l as [|x l IH]; simpl; [done|].
  destruct (f x) as [y|e'] eqn:Hx; cbn [mbind result_bind].
  - destruct (mapM f l) as [ys|e'] eqn:Hl; cbn [mbind result_bind]; [done|].
    intros [= ->]. destruct (IH eq_refl) as (x' & Hin & Hx').
    exists x'. split; [by right|done].
  - intros [= ->]. exists x. split; [by left|done].
Qed.

Lemma mapM_all_ok {A B : Type} (f : A -> result B) (l : list A) (l' : list B) :
  mapM f l = Ok l' -> forall x, x ∈ l -> exists y, f x = Ok y.
Proof.
  revert l'. induction l as [|x l IH]; intros l' Hm x' Hin.
  - by apply elem_of_nil in Hin.
  - simpl in Hm. apply bind_inv in Hm as (y & Hx & Hm).
    apply bind_inv in Hm as (ys & Hl & _).
    apply elem_of_cons in Hin as [->|Hin]; [by exists y|].
    by apply (IH ys).
Qed.

Section BuildersDiffer.
Context `{Pandas}.

Lemma to_date_strict_raise (c : cell) (e : exn) :
  to_date_strict c = Raise e -> e = ValueError /\ parses c = false.
Proof.
  unfold to_date_strict, parses. destruct (parse_datetime c); try done.
  by intros [= <-].
Qed.

Lemma to_date_strict_parses (c : cell) (d : option Z) :
  to_date_strict c = Ok d -> parses c = true.
Proof. unfold to_date_strict, parses. by destruct (parse_datetime c). Qed.

Lemma prepare_weekly_raise (r : pydict) (e : exn) :
  prepare_weekly r = Raise e -> e = ValueError.
Proof.
  unfold prepare_weekly.
  destruct (to_date_strict (row_get r c_start)) as [s|e1] eqn:Hs;
    cbn [mbind result_bind].
  - destruct (to_date_strict (row_get r c_end)) as [d|e2] eqn:He;
      cbn [mbind result_bind]; [done|].
    intros [= <-]. by apply to_date_strict_raise in He as [-> _].
  - intros [= <-]. by apply to_date_strict_raise in Hs as [-> _].
Qed.

Lemma prepare_weekly_parses (r : pydict) (t : wtask) :
  prepare_weekly r = Ok t ->
  parses (row_get r c_start) = true /\ parses (row_get r c_end) = true.
Proof.
  unfold prepare_weekly. intros Hp.
  apply bind_inv in Hp as (s & Hs & Hp). apply bind_inv in Hp as (d & He & _).
  split; by eapply to_date_strict_parses.
Qed.



End BuildersDiffer.



(** ** Sheets that give day numbers only *)

Section DayNumberSheets.
Context `{Pandas}.

Lemma date_columns_from_days (df : DataFrame) :
  mem c_start (columns df) = false -> mem c_end (columns df) = false ->
  exists g : pydict -> pydict,
    rows (date_columns df) = g <$> rows df
    /\ (forall r c, c <> c_start -> c <> c_end -> row_get (g r) c = row_get r c)
    /\ forall r, row_get (g r) c_start = day_to_date (row_get r c_startDay)
                 /\ row_get (g r) c_end = day_to_date (row_get r c_startDay).
Proof.
  intros Hs He. unfold date_columns. rewrite Hs.
  assert (He' : mem c_end
                  (columns (assign c_start
                              (fun r => day_to_date (row_get r c_startDay)) df))
                = false).
  { destruct (mem c_end (columns (assign c_start _ df))) eqn:Hm; [|done].
    unfold assign in Hm. cbn [columns] in Hm.
    apply mem_add_col_inv in Hm as [Hm|Hm]; [by vm_compute in Hm|congruence]. }
  rewrite He'. eexists. split; [|split].
  - unfold assign. cbn [rows]. rewrite <- list_fmap_compose. reflexivity.
  - intros r c H1 H2. unfold compose. by rewrite !row_get_set_ne by congruence.
  - intros r. unfold compose. split; by row_simpl.
Qed.


End DayNumberSheets.


(** ** The order of the list view *)

Lemma order_like_date : order_like date_cmp.
Proof.
  split.
  - intros [x|] [y|]; simpl; try done. apply Z.compare_antisym.
  - intros [x|] [y|] [z|]; simpl; try done.
    rewrite !Z.compare_lt_iff. lia.
  - intros [x|] [y|] [z|]; simpl; try done.
    intros ->%Z.compare_eq. done.
Qed.

Lemma order_like_view_key : order_like view_key_cmp.
Proof.
  apply (order_like_lex (fun a b => date_cmp (key_start a) (key_start b))).
  - apply (order_like_on key_start), order_like_date.
  - apply (order_like_lex
             (fun a b => String.compare (key_str c_Phase a) (key_str c_Phase b))).
    + apply (order_like_on (key_str c_Phase)), order_like_string.
    + apply (order_like_on (key_str c_title)), order_like_string.
Qed.

Lemma view_le_typed (a b : pydict) :
  view_typed a -> view_typed b -> view_le a b = not_gt (view_key_cmp a b).
Proof.
  intros (Ha1 & (pa & Ha2) & (ta & Ha3)) (Hb1 & (pb & Hb2) & (tb & Hb3)).
  unfold view_le, view_key_cmp, key_start, key_str.
  rewrite Ha2, Ha3, Hb2, Hb3.
  destruct Ha1 as [-> | [da ->]], Hb1 as [-> | [db ->]]; reflexivity.
Qed.

Lemma insert_by_ext {A : Type} (le1 le2 : A -> A -> bool) (x : A) (l : list A) :
  (forall y, y ∈ l -> le1 x y = le2 x y) ->
  insert_by le1 x l = insert_by le2 x l.
Proof.
  induction l as [|y l IH]; intros Hext; [done|]. cbn [insert_by].
  rewrite (Hext y) by (by left). destruct (le2 x y); [done|].
  f_equal. apply IH. intros z Hz. apply Hext. by right.
Qed.

Lemma sort_values_ext {A : Type} (le1 : A -> A -> bool)
    (cmp : A -> A -> comparison) (l : list A) :
  (forall x y, x ∈ l -> y ∈ l -> le1 x y = not_gt (cmp x y)) ->
  sort_values le1 l = sort_values (fun a b => not_gt (cmp a b)) l.
Proof.
  induction l as [|x l IH]; intros Hext; [done|]. cbn [sort_values foldr].
  fold (sort_values le1 l). fold (sort_values (fun a b => not_gt (cmp a b)) l).
  rewrite IH by (intros a b Ha Hb; apply Hext; by right).
  apply insert_by_ext. intros y Hy. apply Hext; [by left|].
  right. by rewrite (sort_values_perm cmp l) in Hy.
Qed.

Lemma StronglySorted_within {A : Type} (R R' : A -> A -> Prop) (l : list A) :
  (forall a b, a ∈ l -> b ∈ l -> R a b -> R' a b) ->
  StronglySorted R l -> StronglySorted R' l.
Proof.
  intros Himp Hs. induction Hs as [|x l Hs IH Hx]; [constructor|].
  constructor.
  - apply IH. intros a b Ha Hb. apply Himp; by right.
  - apply Forall_forall. intros y Hy. apply Himp; [by left|by right|].
    by apply (proj1 (Forall_forall _ _) Hx).
Qed.

Section ListOrder.
Context `{Pandas}.

Lemma view_row_typed (r : pydict) : view_typed (view_row r).
Proof.
  unfold view_typed, view_row. split; [|split].
  - row_simpl. unfold to_datetime_coerce.
    destruct (parse_datetime (row_get r c_start)); [right; by eexists|by left..].
  - row_simpl. unfold astype_str. by eexists.
  - row_simpl. unfold astype_str. by eexists.
Qed.


End ListOrder.

